(** * 3DEngine: the triangle renderer of [src/main.cpp]

    The program is one flat procedure that talks to two libraries (GLFW
    for the window and the input, OpenGL through glad for the GPU).  It is
    embedded here as a monadic program over
    - an environment [Env] that answers every library call whose result
      the program reads (return values, status flags, info logs, the key
      state and the window events of each frame), and
    - the list of library calls the program makes, in order ([Event]).

    The frame loop need not terminate, so it takes fuel: one unit per
    evaluation of the loop condition. *)

From Stdlib Require Import ZArith List String Ascii Bool Arith Lia QArith.
Import ListNotations.

Local Open Scope string_scope.
Local Open Scope Z_scope.
Local Open Scope list_scope.

(** ** Constants of the two libraries *)

Inductive GLenum : Type :=
| GL_ARRAY_BUFFER | GL_STATIC_DRAW | GL_FLOAT
| GL_VERTEX_SHADER | GL_FRAGMENT_SHADER
| GL_COMPILE_STATUS | GL_LINK_STATUS
| GL_TRIANGLES.

Inductive GLbitfield : Type := GL_COLOR_BUFFER_BIT.

Inductive GLFWhint : Type :=
| GLFW_CONTEXT_VERSION_MAJOR | GLFW_CONTEXT_VERSION_MINOR | GLFW_OPENGL_PROFILE.

(** The value of the macro in glfw3.h. *)
Definition GLFW_OPENGL_CORE_PROFILE : Z := 0x00032001.

Inductive GLFWkey : Type := GLFW_KEY_ESCAPE.

(** What [glfwGetKey] returns. *)
Inductive KeyAction : Type := GLFW_RELEASE | GLFW_PRESS.

Definition KeyAction_eqb (a b : KeyAction) : bool :=
  match a, b with
  | GLFW_RELEASE, GLFW_RELEASE | GLFW_PRESS, GLFW_PRESS => true
  | _, _ => false
  end.

(** A null pointer. *)
Definition NULL : Z := 0.

(** [sizeof(float)]: GLfloat is the 32-bit IEEE type. *)
Definition sizeof_float : Z := 4.

(** The symbol resolver the program hands to glad. *)
Inductive GLADloadproc : Type := glfwGetProcAddress.

(** The one function the program registers as a callback. *)
Inductive Callback : Type := framebuffer_size_callback_ptr.

(** ** The embedded literals *)

Definition newline : string := String (ascii_of_nat 10) EmptyString.

Definition vertexShaderSource : string := "
#version 330 core
layout (location = 0) in vec3 aPos;
void main() {
    gl_Position = vec4(aPos, 1.0);
}
".

Definition fragmentShaderSource : string := "
#version 330 core
out vec4 FragColor;
void main() {
    FragColor = vec4(1.0, 0.5, 0.2, 1.0);
}
".

(** [float vertices[]]: every literal is a dyadic rational, exact in
    binary32, so the array is given by its values. *)
Definition vertices : list Q :=
  [ (-1 # 2)%Q; (-1 # 2)%Q; (0 # 1)%Q;
    ( 1 # 2)%Q; (-1 # 2)%Q; (0 # 1)%Q;
    ( 0 # 1)%Q; ( 1 # 2)%Q; (0 # 1)%Q ].

(** [sizeof(vertices)] *)
Definition sizeof_vertices : Z := Z.of_nat (List.length vertices) * sizeof_float.

(** ** Library calls, as the program makes them *)

Inductive Event : Type :=
| GlfwInit
| GlfwWindowHint (hint : GLFWhint) (value : Z)
| GlfwCreateWindow (width height : Z) (title : string) (monitor share : Z)
| GlfwTerminate
| GlfwMakeContextCurrent (window : Z)
| GlfwSetFramebufferSizeCallback (window : Z) (cb : Callback)
| GladLoadGLLoader (load : GLADloadproc)
| Cerr (text : string)
| GlGenVertexArrays (n : Z)
| GlGenBuffers (n : Z)
| GlBindVertexArray (array : Z)
| GlBindBuffer (target : GLenum) (buffer : Z)
| GlBufferData (target : GLenum) (size : Z) (data : list Q) (usage : GLenum)
| GlVertexAttribPointer (index size : Z) (type : GLenum) (normalized : bool)
                        (stride pointer : Z)
| GlEnableVertexAttribArray (index : Z)
| GlCreateShader (type : GLenum)
| GlShaderSource (shader count : Z) (source : string) (length : Z)
| GlCompileShader (shader : Z)
| GlGetShaderiv (shader : Z) (pname : GLenum)
| GlGetShaderInfoLog (shader maxLength : Z)
| GlCreateProgram
| GlAttachShader (program shader : Z)
| GlLinkProgram (program : Z)
| GlGetProgramiv (program : Z) (pname : GLenum)
| GlGetProgramInfoLog (program maxLength : Z)
| GlDeleteShader (shader : Z)
| GlfwWindowShouldClose (window : Z)
| GlfwGetKey (window : Z) (key : GLFWkey)
| GlfwSetWindowShouldClose (window : Z) (value : bool)
| GlClear (mask : GLbitfield)
| GlUseProgram (program : Z)
| GlDrawArrays (mode : GLenum) (first count : Z)
| GlfwSwapBuffers (window : Z)
| GlfwPollEvents
| GlViewport (x y width height : Z)
| GlDeleteVertexArrays (n array : Z)
| GlDeleteBuffers (n buffer : Z)
| GlDeleteProgram (program : Z).

(** ** The environment

    Everything the libraries hand back to the program.  The per-frame
    inputs are indexed by the number of [glfwPollEvents] calls made so
    far: GLFW refreshes its cached key state and delivers window events
    only inside that call.

    A query on a shader or a program answers [None] when OpenGL raises an
    error instead (the name is not that of a shader or program): the
    variable the answer was to go to is then left as it was.  The program
    declares [success] and [infoLog] without initialising them; what they
    hold until first written is given by the environment too. *)

Record Env : Type := {
  glfwInit_result : bool;
  glfwCreateWindow_result : Z;            (* NULL when creation fails *)
  gladLoadGLLoader_result : bool;
  gen_vertex_array : Z;                   (* name written to VAO *)
  gen_buffer : Z;                         (* name written to VBO *)
  create_shader : GLenum -> Z;
  create_program : Z;
  shader_iv : Z -> GLenum -> option Z;    (* glGetShaderiv *)
  shader_info_log : Z -> option string;   (* the log, without its final NUL *)
  program_iv : Z -> GLenum -> option Z;   (* glGetProgramiv *)
  program_info_log : Z -> option string;
  uninitialised_success : Z;              (* [int success;] as declared *)
  uninitialised_infoLog : string;         (* [char infoLog[512];] as declared *)
  key_state : nat -> GLFWkey -> KeyAction;
  close_requested : nat -> bool;          (* the user closes the window *)
  resize_events : nat -> list (Z * Z)     (* new framebuffer sizes *)
}.

(** ** State of the window and results of a run *)

Record World : Type := {
  shouldClose : bool;
  polls : nat;
  framebufferSizeCallback : option Callback
}.

(** GLFW creates a window with its close flag cleared and no callback. *)
Definition initial_world : World :=
  {| shouldClose := false; polls := 0; framebufferSizeCallback := None |}.

(** [value = None]: the fuel ran out, the program is still in its loop. *)
Record Result (A : Type) : Type := mkResult {
  value : option A;
  world : World;
  calls : list Event
}.
Arguments mkResult {A} _ _ _.
Arguments value {A} _.
Arguments world {A} _.
Arguments calls {A} _.

Definition M (A : Type) : Type := World -> Result A.

Definition ret {A} (a : A) : M A := fun w => mkResult (Some a) w [].

(** [prepend tr r]: the calls [tr] were made before those of [r]. *)
Definition prepend {A} (tr : list Event) (r : Result A) : Result A :=
  match r with
  | mkResult v w tr' => mkResult v w (tr ++ tr')
  end.

Definition bind {A B} (m : M A) (f : A -> M B) : M B :=
  fun w =>
    match m w with
    | mkResult None w' tr => mkResult None w' tr
    | mkResult (Some a) w' tr => prepend tr (f a w')
    end.

Definition out_of_fuel {A} : M A := fun w => mkResult None w [].

(** One library call that does not touch the window state. *)
Definition call {A} (e : Event) (a : A) : M A := fun w => mkResult (Some a) w [e].

Declare Scope prog_scope.
Delimit Scope prog_scope with prog.
Notation "x <- m ;; k" := (bind m (fun x => k))
  (at level 100, m at next level, right associativity) : prog_scope.
Notation "m ;; k" := (bind m (fun _ => k))
  (at level 100, right associativity) : prog_scope.
Local Open Scope prog_scope.

(** [glGetShaderInfoLog] and [glGetProgramInfoLog] copy at most
    [maxLength - 1] characters of the log and a final NUL. *)
Definition copy_info_log (maxLength : Z) (log : string) : string :=
  substring 0 (Z.to_nat (maxLength - 1)) log.

(** What a variable holds after a query that was to write it. *)
Definition read_back {A} (answer : option A) (old : A) : A :=
  match answer with
  | Some a => a
  | None => old
  end.

Section Program.

Variable env : Env.

(** *** GLFW *)

Definition glfwInit : M bool := call GlfwInit (glfwInit_result env).

Definition glfwWindowHint (hint : GLFWhint) (v : Z) : M unit :=
  call (GlfwWindowHint hint v) tt.

Definition glfwCreateWindow (width height : Z) (title : string) (monitor share : Z)
  : M Z :=
  call (GlfwCreateWindow width height title monitor share) (glfwCreateWindow_result env).

Definition glfwTerminate : M unit := call GlfwTerminate tt.

Definition glfwMakeContextCurrent (window : Z) : M unit :=
  call (GlfwMakeContextCurrent window) tt.

Definition glfwSetFramebufferSizeCallback (window : Z) (cb : Callback) : M unit :=
  fun w =>
    mkResult (Some tt)
      {| shouldClose := shouldClose w; polls := polls w;
         framebufferSizeCallback := Some cb |}
      [GlfwSetFramebufferSizeCallback window cb].

Definition glfwWindowShouldClose (window : Z) : M bool :=
  fun w => mkResult (Some (shouldClose w)) w [GlfwWindowShouldClose window].

Definition glfwSetWindowShouldClose (window : Z) (v : bool) : M unit :=
  fun w =>
    mkResult (Some tt)
      {| shouldClose := v; polls := polls w;
         framebufferSizeCallback := framebufferSizeCallback w |}
      [GlfwSetWindowShouldClose window v].

Definition glfwGetKey (window : Z) (key : GLFWkey) : M KeyAction :=
  fun w => mkResult (Some (key_state env (polls w) key)) w [GlfwGetKey window key].

Definition glfwSwapBuffers (window : Z) : M unit := call (GlfwSwapBuffers window) tt.

Definition gladLoadGLLoader (load : GLADloadproc) : M bool :=
  call (GladLoadGLLoader load) (gladLoadGLLoader_result env).

Definition cerr (text : string) : M unit := call (Cerr text) tt.

(** *** OpenGL

    A pointer argument through which a call hands something back is the
    result of the call here; the optional pointer that would receive the
    length of an info log is null in the program and left out.  The four
    queries take what their variable held before the call and return
    what it holds after it, which is the same when OpenGL raises an error. *)

Definition glViewport (x y width height : Z) : M unit :=
  call (GlViewport x y width height) tt.
Definition glGenVertexArrays (n : Z) : M Z :=
  call (GlGenVertexArrays n) (gen_vertex_array env).
Definition glGenBuffers (n : Z) : M Z := call (GlGenBuffers n) (gen_buffer env).
Definition glBindVertexArray (array : Z) : M unit := call (GlBindVertexArray array) tt.
Definition glBindBuffer (target : GLenum) (buffer : Z) : M unit :=
  call (GlBindBuffer target buffer) tt.
Definition glBufferData (target : GLenum) (size : Z) (data : list Q) (usage : GLenum)
  : M unit := call (GlBufferData target size data usage) tt.
Definition glVertexAttribPointer (index size : Z) (type : GLenum) (normalized : bool)
  (stride pointer : Z) : M unit :=
  call (GlVertexAttribPointer index size type normalized stride pointer) tt.
Definition glEnableVertexAttribArray (index : Z) : M unit :=
  call (GlEnableVertexAttribArray index) tt.
Definition glCreateShader (type : GLenum) : M Z :=
  call (GlCreateShader type) (create_shader env type).
Definition glShaderSource (shader count : Z) (source : string) (length : Z) : M unit :=
  call (GlShaderSource shader count source length) tt.
Definition glCompileShader (shader : Z) : M unit := call (GlCompileShader shader) tt.
Definition glGetShaderiv (shader : Z) (pname : GLenum) (params : Z) : M Z :=
  call (GlGetShaderiv shader pname) (read_back (shader_iv env shader pname) params).
Definition glGetShaderInfoLog (shader maxLength : Z) (infoLog : string) : M string :=
  call (GlGetShaderInfoLog shader maxLength)
       (read_back (option_map (copy_info_log maxLength) (shader_info_log env shader))
                  infoLog).
Definition glCreateProgram : M Z := call GlCreateProgram (create_program env).
Definition glAttachShader (program shader : Z) : M unit :=
  call (GlAttachShader program shader) tt.
Definition glLinkProgram (program : Z) : M unit := call (GlLinkProgram program) tt.
Definition glGetProgramiv (program : Z) (pname : GLenum) (params : Z) : M Z :=
  call (GlGetProgramiv program pname) (read_back (program_iv env program pname) params).
Definition glGetProgramInfoLog (program maxLength : Z) (infoLog : string) : M string :=
  call (GlGetProgramInfoLog program maxLength)
       (read_back (option_map (copy_info_log maxLength) (program_info_log env program))
                  infoLog).
Definition glDeleteShader (shader : Z) : M unit := call (GlDeleteShader shader) tt.
Definition glClear (mask : GLbitfield) : M unit := call (GlClear mask) tt.
Definition glUseProgram (program : Z) : M unit := call (GlUseProgram program) tt.
Definition glDrawArrays (mode : GLenum) (first count : Z) : M unit :=
  call (GlDrawArrays mode first count) tt.
Definition glDeleteVertexArrays (n array : Z) : M unit :=
  call (GlDeleteVertexArrays n array) tt.
Definition glDeleteBuffers (n buffer : Z) : M unit := call (GlDeleteBuffers n buffer) tt.
Definition glDeleteProgram (program : Z) : M unit := call (GlDeleteProgram program) tt.

(** *** The program *)

(** [framebuffer_size_callback(window, width, height)] *)
Definition framebuffer_size_callback (window width height : Z) : M unit :=
  glViewport 0 0 width height.

Definition run_callback (cb : Callback) (window : Z) (size : Z * Z) : M unit :=
  match cb with
  | framebuffer_size_callback_ptr => framebuffer_size_callback window (fst size) (snd size)
  end.

Fixpoint dispatch (cb : Callback) (window : Z) (sizes : list (Z * Z)) : M unit :=
  match sizes with
  | [] => ret tt
  | size :: rest => run_callback cb window size ;; dispatch cb window rest
  end.

(** [glfwPollEvents]: hands the pending framebuffer sizes of the window to
    the registered callback, raises the close flag when the user asked to
    close (the program registers no close callback, so nothing lowers it),
    and moves the input on by one poll. *)
Definition glfwPollEvents : M unit :=
  fun w =>
    let dispatched :=
      match framebufferSizeCallback w with
      | Some cb =>
          dispatch cb (glfwCreateWindow_result env) (resize_events env (polls w)) w
      | None => ret tt w
      end in
    match dispatched with
    | mkResult v w' tr =>
        mkResult v
          {| shouldClose := shouldClose w' || close_requested env (polls w);
             polls := S (polls w);
             framebufferSizeCallback := framebufferSizeCallback w' |}
          (GlfwPollEvents :: tr)
    end.

(** Lines 57-78: the vertex array object and the vertex buffer. *)
Definition upload_geometry : M (Z * Z) :=
  VAO <- glGenVertexArrays 1 ;;
  VBO <- glGenBuffers 1 ;;
  glBindVertexArray VAO ;;
  glBindBuffer GL_ARRAY_BUFFER VBO ;;
  glBufferData GL_ARRAY_BUFFER sizeof_vertices vertices GL_STATIC_DRAW ;;
  glVertexAttribPointer 0 3 GL_FLOAT false (3 * sizeof_float) 0 ;;
  glEnableVertexAttribArray 0 ;;
  ret (VAO, VBO).

(** Lines 82-116: the two shaders and the program.  [success] is an int,
    [!success] holds when it is 0.  There is one [success] and one
    [infoLog] for the three steps, declared at line 85 and 86 without an
    initial value and passed on from step to step. *)
Definition build_program : M Z :=
  vertexShader <- glCreateShader GL_VERTEX_SHADER ;;
  glShaderSource vertexShader 1 vertexShaderSource NULL ;;
  glCompileShader vertexShader ;;
  let success := uninitialised_success env in
  let infoLog := uninitialised_infoLog env in
  success <- glGetShaderiv vertexShader GL_COMPILE_STATUS success ;;
  infoLog <-
    (if success =? 0 then
       infoLog <- glGetShaderInfoLog vertexShader 512 infoLog ;;
       cerr ("ERROR::VERTEX_SHADER_COMPILATION_FAILED" ++ newline ++ infoLog ++ newline)%string ;;
       ret infoLog
     else ret infoLog) ;;
  fragmentShader <- glCreateShader GL_FRAGMENT_SHADER ;;
  glShaderSource fragmentShader 1 fragmentShaderSource NULL ;;
  glCompileShader fragmentShader ;;
  success <- glGetShaderiv fragmentShader GL_COMPILE_STATUS success ;;
  infoLog <-
    (if success =? 0 then
       infoLog <- glGetShaderInfoLog fragmentShader 512 infoLog ;;
       cerr ("ERROR::FRAGMENT_SHADER_COMPILATION_FAILED" ++ newline ++ infoLog ++ newline)%string ;;
       ret infoLog
     else ret infoLog) ;;
  shaderProgram <- glCreateProgram ;;
  glAttachShader shaderProgram vertexShader ;;
  glAttachShader shaderProgram fragmentShader ;;
  glLinkProgram shaderProgram ;;
  success <- glGetProgramiv shaderProgram GL_LINK_STATUS success ;;
  (if success =? 0 then
     infoLog <- glGetProgramInfoLog shaderProgram 512 infoLog ;;
     cerr ("ERROR::SHADER_PROGRAM_LINKING_FAILED" ++ newline ++ infoLog ++ newline)%string
   else ret tt) ;;
  glDeleteShader vertexShader ;;
  glDeleteShader fragmentShader ;;
  ret shaderProgram.

(** Lines 120-134: the body of the loop. *)
Definition frame (window shaderProgram VAO : Z) : M unit :=
  key <- glfwGetKey window GLFW_KEY_ESCAPE ;;
  (if KeyAction_eqb key GLFW_PRESS
   then glfwSetWindowShouldClose window true
   else ret tt) ;;
  glClear GL_COLOR_BUFFER_BIT ;;
  glUseProgram shaderProgram ;;
  glBindVertexArray VAO ;;
  glDrawArrays GL_TRIANGLES 0 3 ;;
  glfwSwapBuffers window ;;
  glfwPollEvents.

(** Line 119: [while (!glfwWindowShouldClose(window)) { ... }] *)
Fixpoint render_loop (fuel : nat) (window shaderProgram VAO : Z) : M unit :=
  match fuel with
  | O => out_of_fuel
  | S fuel' =>
      close <- glfwWindowShouldClose window ;;
      if close then ret tt
      else (frame window shaderProgram VAO ;;
            render_loop fuel' window shaderProgram VAO)
  end.

(** [int main()] *)
Definition main (fuel : nat) : M Z :=
  ok <- glfwInit ;;
  if negb ok then ret (-1) else
  glfwWindowHint GLFW_CONTEXT_VERSION_MAJOR 3 ;;
  glfwWindowHint GLFW_CONTEXT_VERSION_MINOR 3 ;;
  glfwWindowHint GLFW_OPENGL_PROFILE GLFW_OPENGL_CORE_PROFILE ;;
  window <- glfwCreateWindow 800 600 "Triangulo OpenGL" NULL NULL ;;
  if window =? NULL then (glfwTerminate ;; ret (-1)) else
  glfwMakeContextCurrent window ;;
  glfwSetFramebufferSizeCallback window framebuffer_size_callback_ptr ;;
  ok <- gladLoadGLLoader glfwGetProcAddress ;;
  if negb ok then (cerr ("Failed to initialize GLAD" ++ newline)%string ;; ret (-1)) else
  objects <- upload_geometry ;;
  let VAO := fst objects in
  let VBO := snd objects in
  shaderProgram <- build_program ;;
  render_loop fuel window shaderProgram VAO ;;
  glDeleteVertexArrays 1 VAO ;;
  glDeleteBuffers 1 VBO ;;
  glDeleteProgram shaderProgram ;;
  glfwTerminate ;;
  ret 0.

End Program.

(** The process: [main] started on a fresh window state. *)
Definition run (env : Env) (fuel : nat) : Result Z := main env fuel initial_world.

(** ** What a run looks like

    The calls of each phase, written out.  The lemmas of the next section
    show that [main] makes exactly these. *)

Definition window_of (env : Env) : Z := glfwCreateWindow_result env.
Definition VAO_of (env : Env) : Z := gen_vertex_array env.
Definition VBO_of (env : Env) : Z := gen_buffer env.
Definition vertexShader_of (env : Env) : Z := create_shader env GL_VERTEX_SHADER.
Definition fragmentShader_of (env : Env) : Z := create_shader env GL_FRAGMENT_SHADER.
Definition shaderProgram_of (env : Env) : Z := create_program env.

(** All three initialisations succeed. *)
Definition boots (env : Env) : bool :=
  glfwInit_result env && negb (window_of env =? NULL) && gladLoadGLLoader_result env.

Definition hint_calls : list Event :=
  [ GlfwWindowHint GLFW_CONTEXT_VERSION_MAJOR 3;
    GlfwWindowHint GLFW_CONTEXT_VERSION_MINOR 3;
    GlfwWindowHint GLFW_OPENGL_PROFILE GLFW_OPENGL_CORE_PROFILE ].

Definition bootstrap_calls (env : Env) : list Event :=
  GlfwInit :: hint_calls ++
  [ GlfwCreateWindow 800 600 "Triangulo OpenGL" NULL NULL;
    GlfwMakeContextCurrent (window_of env);
    GlfwSetFramebufferSizeCallback (window_of env) framebuffer_size_callback_ptr;
    GladLoadGLLoader glfwGetProcAddress ].

Definition geometry_calls (env : Env) : list Event :=
  [ GlGenVertexArrays 1;
    GlGenBuffers 1;
    GlBindVertexArray (VAO_of env);
    GlBindBuffer GL_ARRAY_BUFFER (VBO_of env);
    GlBufferData GL_ARRAY_BUFFER sizeof_vertices vertices GL_STATIC_DRAW;
    GlVertexAttribPointer 0 3 GL_FLOAT false (3 * sizeof_float) 0;
    GlEnableVertexAttribArray 0 ].

(** The text a failed build step sends to standard error: its header and
    what [infoLog] holds. *)
Definition failure_report (header infoLog : string) : string :=
  (header ++ newline ++ infoLog ++ newline)%string.

(** [success] after each of the three status queries. *)
Definition vertex_success (env : Env) : Z :=
  read_back (shader_iv env (vertexShader_of env) GL_COMPILE_STATUS)
            (uninitialised_success env).
Definition fragment_success (env : Env) : Z :=
  read_back (shader_iv env (fragmentShader_of env) GL_COMPILE_STATUS)
            (vertex_success env).
Definition link_success (env : Env) : Z :=
  read_back (program_iv env (shaderProgram_of env) GL_LINK_STATUS)
            (fragment_success env).

(** The three tests [!success]. *)
Definition vertex_failed (env : Env) : bool := vertex_success env =? 0.
Definition fragment_failed (env : Env) : bool := fragment_success env =? 0.
Definition link_failed (env : Env) : bool := link_success env =? 0.

(** [infoLog] after each of the three steps: a step whose test fails
    asks for the log, a step whose test passes leaves [infoLog] alone. *)
Definition vertex_infoLog (env : Env) : string :=
  if vertex_failed env
  then read_back (option_map (copy_info_log 512)
                    (shader_info_log env (vertexShader_of env)))
                 (uninitialised_infoLog env)
  else uninitialised_infoLog env.
Definition fragment_infoLog (env : Env) : string :=
  if fragment_failed env
  then read_back (option_map (copy_info_log 512)
                    (shader_info_log env (fragmentShader_of env)))
                 (vertex_infoLog env)
  else vertex_infoLog env.
Definition link_infoLog (env : Env) : string :=
  if link_failed env
  then read_back (option_map (copy_info_log 512)
                    (program_info_log env (shaderProgram_of env)))
                 (fragment_infoLog env)
  else fragment_infoLog env.

Definition answered {A} (answer : option A) : bool :=
  match answer with
  | Some _ => true
  | None => false
  end.

(** The names [glCreateShader] and [glCreateProgram] returned are those
    of two shaders and a program: OpenGL answers the queries on them. *)
Definition names_valid (env : Env) : bool :=
  answered (shader_iv env (vertexShader_of env) GL_COMPILE_STATUS)
  && answered (shader_info_log env (vertexShader_of env))
  && answered (shader_iv env (fragmentShader_of env) GL_COMPILE_STATUS)
  && answered (shader_info_log env (fragmentShader_of env))
  && answered (program_iv env (shaderProgram_of env) GL_LINK_STATUS)
  && answered (program_info_log env (shaderProgram_of env)).

Definition on_failure (failed : bool) (fetch : Event) (text : string) : list Event :=
  if failed then [fetch; Cerr text] else [].

Definition shader_calls (env : Env) : list Event :=
  let vs := vertexShader_of env in
  let fs := fragmentShader_of env in
  let prog := shaderProgram_of env in
  [ GlCreateShader GL_VERTEX_SHADER; GlShaderSource vs 1 vertexShaderSource NULL;
    GlCompileShader vs; GlGetShaderiv vs GL_COMPILE_STATUS ] ++
  on_failure (vertex_failed env) (GlGetShaderInfoLog vs 512)
    (failure_report "ERROR::VERTEX_SHADER_COMPILATION_FAILED" (vertex_infoLog env)) ++
  [ GlCreateShader GL_FRAGMENT_SHADER; GlShaderSource fs 1 fragmentShaderSource NULL;
    GlCompileShader fs; GlGetShaderiv fs GL_COMPILE_STATUS ] ++
  on_failure (fragment_failed env) (GlGetShaderInfoLog fs 512)
    (failure_report "ERROR::FRAGMENT_SHADER_COMPILATION_FAILED" (fragment_infoLog env)) ++
  [ GlCreateProgram; GlAttachShader prog vs; GlAttachShader prog fs;
    GlLinkProgram prog; GlGetProgramiv prog GL_LINK_STATUS ] ++
  on_failure (link_failed env) (GlGetProgramInfoLog prog 512)
    (failure_report "ERROR::SHADER_PROGRAM_LINKING_FAILED" (link_infoLog env)) ++
  [ GlDeleteShader vs; GlDeleteShader fs ].

Definition setup_calls (env : Env) : list Event :=
  bootstrap_calls env ++ geometry_calls env ++ shader_calls env.

(** Escape is down when frame [i] polls the keyboard. *)
Definition escape_pressed (env : Env) (i : nat) : bool :=
  KeyAction_eqb (key_state env i GLFW_KEY_ESCAPE) GLFW_PRESS.

Definition viewport_call (size : Z * Z) : Event :=
  GlViewport 0 0 (fst size) (snd size).

(** The calls of the loop body in frame [i]. *)
Definition frame_calls (env : Env) (i : nat) : list Event :=
  GlfwGetKey (window_of env) GLFW_KEY_ESCAPE ::
  (if escape_pressed env i then [GlfwSetWindowShouldClose (window_of env) true] else []) ++
  [ GlClear GL_COLOR_BUFFER_BIT;
    GlUseProgram (shaderProgram_of env);
    GlBindVertexArray (VAO_of env);
    GlDrawArrays GL_TRIANGLES 0 3;
    GlfwSwapBuffers (window_of env);
    GlfwPollEvents ] ++
  map viewport_call (resize_events env i).

(** The loop condition, found false, and the body. *)
Definition iteration (env : Env) (i : nat) : list Event :=
  GlfwWindowShouldClose (window_of env) :: frame_calls env i.

Definition cleanup_calls (env : Env) : list Event :=
  [ GlDeleteVertexArrays 1 (VAO_of env);
    GlDeleteBuffers 1 (VBO_of env);
    GlDeleteProgram (shaderProgram_of env);
    GlfwTerminate ].

(** The loop condition, found true, and what follows the loop. *)
Definition exit_calls (env : Env) : list Event :=
  GlfwWindowShouldClose (window_of env) :: cleanup_calls env.

(** Frame [i] raises the close flag: Escape is down when it polls the
    keyboard, or its event poll delivers a close request. *)
Definition closes_after (env : Env) (i : nat) : bool :=
  escape_pressed env i || close_requested env i.

(** The close flag once [i] frames have run. *)
Fixpoint close_flag (env : Env) (i : nat) : bool :=
  match i with
  | O => false
  | S j => close_flag env j || closes_after env j
  end.

(** The window state at the top of iteration [i]. *)
Definition world_at (env : Env) (i : nat) : World :=
  {| shouldClose := close_flag env i; polls := i;
     framebufferSizeCallback := Some framebuffer_size_callback_ptr |}.

(** A run that has gone [n] times round the loop. *)
Definition run_calls (env : Env) (n : nat) (exited : bool) : list Event :=
  setup_calls env ++ flat_map (iteration env) (seq 0 n) ++
  (if exited then exit_calls env else []).

(** The window state once the resize callback is registered. *)
Definition world_registered : World :=
  {| shouldClose := false; polls := 0;
     framebufferSizeCallback := Some framebuffer_size_callback_ptr |}.

(** The calls of the two early exits that follow a call. *)
Definition window_failure_calls : list Event :=
  GlfwInit :: hint_calls ++ [GlfwCreateWindow 800 600 "Triangulo OpenGL" NULL NULL; GlfwTerminate].

Definition loader_failure_calls (env : Env) : list Event :=
  bootstrap_calls env ++ [Cerr ("Failed to initialize GLAD" ++ newline)%string].

(** ** Observations on a list of calls *)

(** The three GPU objects the program owns. *)
Inductive GLObject : Type := VertexArray | VertexBuffer | ShaderProgram.

(** The call that creates an object of kind [k], and the one that deletes it. *)
Definition creates (k : GLObject) (e : Event) : bool :=
  match k, e with
  | VertexArray, GlGenVertexArrays _
  | VertexBuffer, GlGenBuffers _
  | ShaderProgram, GlCreateProgram => true
  | _, _ => false
  end.

Definition deletes (k : GLObject) (e : Event) : bool :=
  match k, e with
  | VertexArray, GlDeleteVertexArrays _ _
  | VertexBuffer, GlDeleteBuffers _ _
  | ShaderProgram, GlDeleteProgram _ => true
  | _, _ => false
  end.

Definition count (p : Event -> bool) (tr : list Event) : nat :=
  List.length (filter p tr).

(** As the program writes them. *)
Definition creation_call (k : GLObject) : Event :=
  match k with
  | VertexArray => GlGenVertexArrays 1
  | VertexBuffer => GlGenBuffers 1
  | ShaderProgram => GlCreateProgram
  end.

Definition deletion_call (env : Env) (k : GLObject) : Event :=
  match k with
  | VertexArray => GlDeleteVertexArrays 1 (VAO_of env)
  | VertexBuffer => GlDeleteBuffers 1 (VBO_of env)
  | ShaderProgram => GlDeleteProgram (shaderProgram_of env)
  end.

(** The kinds of call the loop makes. *)
Definition loop_event (e : Event) : bool :=
  match e with
  | GlfwWindowShouldClose _ | GlfwGetKey _ _ | GlfwSetWindowShouldClose _ _
  | GlClear _ | GlUseProgram _ | GlBindVertexArray _ | GlDrawArrays _ _ _
  | GlfwSwapBuffers _ | GlfwPollEvents | GlViewport _ _ _ _ => true
  | _ => false
  end.

Definition is_terminate (e : Event) : bool :=
  match e with GlfwTerminate => true | _ => false end.

Definition is_cerr (e : Event) : bool :=
  match e with Cerr _ => true | _ => false end.

(** Calls that write the data store or the layout of a buffer. *)
Definition writes_buffer (e : Event) : bool :=
  match e with GlBufferData _ _ _ _ => true | _ => false end.

Definition sets_attribute (e : Event) : bool :=
  match e with
  | GlVertexAttribPointer _ _ _ _ _ _ | GlEnableVertexAttribArray _ => true
  | _ => false
  end.

(** Calls that go to OpenGL rather than to GLFW, glad or standard error. *)
Definition is_gl (e : Event) : bool :=
  match e with
  | GlfwInit | GlfwWindowHint _ _ | GlfwCreateWindow _ _ _ _ _ | GlfwTerminate
  | GlfwMakeContextCurrent _ | GlfwSetFramebufferSizeCallback _ _
  | GladLoadGLLoader _ | Cerr _ | GlfwWindowShouldClose _ | GlfwGetKey _ _
  | GlfwSetWindowShouldClose _ _ | GlfwSwapBuffers _ | GlfwPollEvents => false
  | _ => true
  end.

Definition gl_calls (tr : list Event) : list Event := filter is_gl tr.

(** The floats attribute [index] reads for vertex [i] from a buffer of
    floats, under a layout of [size] floats every [stride] bytes from
    byte [pointer]. *)
Definition attribute_of_vertex (data : list Q) (size stride pointer : Z) (i : nat)
  : list Q :=
  firstn (Z.to_nat size)
    (skipn (Z.to_nat ((pointer + Z.of_nat i * stride) / sizeof_float)) data).

(** A value [m / 2^k] with [|m| < 2^24] and [k <= 149] is a binary32 number. *)
Fixpoint power_of_two (p : positive) : bool :=
  match p with
  | xH => true
  | xO p' => power_of_two p'
  | xI _ => false
  end.

Definition binary32_exact (q : Q) : bool :=
  (Z.abs (Qnum q) <? 2 ^ 24) && power_of_two (Qden q) && (Z.pos (Qden q) <=? 2 ^ 149).

(** The OpenGL calls of one frame: the draw, and the viewport updates of
    the resize callback. *)
Definition gl_frame (env : Env) (i : nat) : list Event :=
  [ GlClear GL_COLOR_BUFFER_BIT;
    GlUseProgram (shaderProgram_of env);
    GlBindVertexArray (VAO_of env);
    GlDrawArrays GL_TRIANGLES 0 3 ] ++
  map viewport_call (resize_events env i).

(** The OpenGL calls that draw a frame, up to the swap that presents it. *)
Definition gl_draw (env : Env) : list Event :=
  [ GlClear GL_COLOR_BUFFER_BIT;
    GlUseProgram (shaderProgram_of env);
    GlBindVertexArray (VAO_of env);
    GlDrawArrays GL_TRIANGLES 0 3 ].

Definition is_swap (e : Event) : bool :=
  match e with GlfwSwapBuffers _ => true | _ => false end.

(** The calls up to the swap that presents frame [k], frames counted
    from 0; the whole list when it has no such swap. *)
Fixpoint until_swap (k : nat) (tr : list Event) : list Event :=
  match tr with
  | [] => []
  | e :: rest =>
      e :: (if is_swap e
            then match k with O => [] | S k' => until_swap k' rest end
            else until_swap k rest)
  end.

(** The calls of iteration [i] before its swap, and after it. *)
Definition before_swap (env : Env) (i : nat) : list Event :=
  [ GlfwWindowShouldClose (window_of env);
    GlfwGetKey (window_of env) GLFW_KEY_ESCAPE ] ++
  (if escape_pressed env i then [GlfwSetWindowShouldClose (window_of env) true] else []) ++
  [ GlClear GL_COLOR_BUFFER_BIT;
    GlUseProgram (shaderProgram_of env);
    GlBindVertexArray (VAO_of env);
    GlDrawArrays GL_TRIANGLES 0 3 ].

Definition after_swap (env : Env) (i : nat) : list Event :=
  GlfwPollEvents :: map viewport_call (resize_events env i).

(** The OpenGL calls of the set-up, from the names and flags OpenGL gave. *)
Definition gl_setup (vao vbo vs fs prog : Z) (vs_failed fs_failed link_failed : bool)
  : list Event :=
  [ GlGenVertexArrays 1; GlGenBuffers 1; GlBindVertexArray vao;
    GlBindBuffer GL_ARRAY_BUFFER vbo;
    GlBufferData GL_ARRAY_BUFFER sizeof_vertices vertices GL_STATIC_DRAW;
    GlVertexAttribPointer 0 3 GL_FLOAT false (3 * sizeof_float) 0;
    GlEnableVertexAttribArray 0;
    GlCreateShader GL_VERTEX_SHADER; GlShaderSource vs 1 vertexShaderSource NULL;
    GlCompileShader vs; GlGetShaderiv vs GL_COMPILE_STATUS ] ++
  (if vs_failed then [GlGetShaderInfoLog vs 512] else []) ++
  [ GlCreateShader GL_FRAGMENT_SHADER; GlShaderSource fs 1 fragmentShaderSource NULL;
    GlCompileShader fs; GlGetShaderiv fs GL_COMPILE_STATUS ] ++
  (if fs_failed then [GlGetShaderInfoLog fs 512] else []) ++
  [ GlCreateProgram; GlAttachShader prog vs; GlAttachShader prog fs;
    GlLinkProgram prog; GlGetProgramiv prog GL_LINK_STATUS ] ++
  (if link_failed then [GlGetProgramInfoLog prog 512] else []) ++
  [ GlDeleteShader vs; GlDeleteShader fs ].

(** Two runs in which OpenGL hands out the same names and the three
    status tests of the build come out the same. *)
Definition same_gpu (env1 env2 : Env) : Prop :=
  gen_vertex_array env1 = gen_vertex_array env2
  /\ gen_buffer env1 = gen_buffer env2
  /\ (forall type, create_shader env1 type = create_shader env2 type)
  /\ create_program env1 = create_program env2
  /\ vertex_failed env1 = vertex_failed env2
  /\ fragment_failed env1 = fragment_failed env2
  /\ link_failed env1 = link_failed env2.

(** Two runs whose window goes through the same framebuffer sizes. *)
Definition same_sizes (env1 env2 : Env) : Prop :=
  forall i, resize_events env1 i = resize_events env2 i.

(** ** Environments to run the program on *)

Definition released (i : nat) (key : GLFWkey) : KeyAction := GLFW_RELEASE.

(** Escape goes down before frame [i] polls the keyboard. *)
Definition escape_at (i : nat) (j : nat) (key : GLFWkey) : KeyAction :=
  if Nat.eqb i j then GLFW_PRESS else GLFW_RELEASE.

Definition make_env (init : bool) (window : Z) (loader : bool)
  (vertex_status link_status : Z) (keys : nat -> GLFWkey -> KeyAction) : Env :=
  {| glfwInit_result := init;
     glfwCreateWindow_result := window;
     gladLoadGLLoader_result := loader;
     gen_vertex_array := 1;
     gen_buffer := 1;
     create_shader := fun type => match type with GL_VERTEX_SHADER => 1 | _ => 2 end;
     create_program := 3;
     shader_iv := fun shader _ => Some (if shader =? 1 then vertex_status else 1);
     shader_info_log := fun _ => Some "0:1(1): error: syntax error";
     program_iv := fun _ _ => Some link_status;
     program_info_log := fun _ => Some "error: linking with uncompiled shader";
     uninitialised_success := 7;
     uninitialised_infoLog := "?";
     key_state := keys;
     close_requested := fun _ => false;
     resize_events := fun i => if Nat.eqb i 0 then [(1024, 768)] else [] |}.

(** Everything succeeds, Escape is pressed in the second frame. *)
Definition env_escape : Env := make_env true 4096 true 1 1 (escape_at 1).
(** The same, with a vertex shader that does not compile. *)
Definition env_bad_shader : Env := make_env true 4096 true 0 0 (escape_at 1).
(** Nobody ever closes the window. *)
Definition env_forever : Env := make_env true 4096 true 1 1 released.
(** The three fatal failures. *)
Definition env_no_glfw : Env := make_env false 4096 true 1 1 released.
Definition env_no_window : Env := make_env true NULL true 1 1 released.
Definition env_no_loader : Env := make_env true 4096 false 1 1 released.

(** ** More observations on a list of calls *)


Definition is_draw (e : Event) : bool :=
  match e with GlDrawArrays _ _ _ => true | _ => false end.

Definition is_clear (e : Event) : bool :=
  match e with GlClear _ => true | _ => false end.

Definition is_poll (e : Event) : bool :=
  match e with GlfwPollEvents => true | _ => false end.

Definition is_key_poll (e : Event) : bool :=
  match e with GlfwGetKey _ _ => true | _ => false end.

(** An evaluation of the loop condition. *)
Definition is_test (e : Event) : bool :=
  match e with GlfwWindowShouldClose _ => true | _ => false end.

Definition is_set_close (e : Event) : bool :=
  match e with GlfwSetWindowShouldClose _ _ => true | _ => false end.


(** The last byte, exclusive, that a draw of [count] vertices from
    [first] fetches from a buffer under a layout of [size] floats every
    [stride] bytes from byte [pointer]. *)
Definition fetch_end (size stride pointer first count : Z) : Z :=
  pointer + (first + count - 1) * stride + size * sizeof_float.

(** ** Checking a run call by call *)

Section Monitor.

Variable State : Type.
Variable step : State -> Event -> option State.

(** The state after the calls of [tr]; [None] as soon as a call is not
    allowed in the state it is made in. *)
Fixpoint monitor (s : State) (tr : list Event) : option State :=
  match tr with
  | [] => Some s
  | e :: rest =>
      match step s e with
      | Some s' => monitor s' rest
      | None => None
      end
  end.

End Monitor.
Arguments monitor {State} step s tr.

(** *** How far the two libraries have been brought up *)

Inductive Stage : Type :=
| Start          (* GLFW not initialised *)
| Initialised    (* glfwInit succeeded, no window *)
| Windowed       (* the window exists *)
| Current        (* its context is current on the thread *)
| Loaded         (* glad has loaded the OpenGL function pointers *)
| Terminated.    (* glfwTerminate has been called *)

Definition is_window (env : Env) (w : Z) : bool :=
  (w =? window_of env) && negb (w =? NULL).

(** What each call needs: window hints and window creation an
    initialised GLFW without a window; every call on a window the handle
    [glfwCreateWindow] returned, not null; the loader a current context;
    every OpenGL call loaded function pointers; [glfwTerminate] an
    initialised GLFW; and nothing but output follows [glfwTerminate]. *)
Definition protocol_step (env : Env) (s : Stage) (e : Event) : option Stage :=
  match e with
  | Cerr _ => Some s
  | GlfwInit =>
      match s with
      | Start => Some (if glfwInit_result env then Initialised else Start)
      | _ => None
      end
  | GlfwWindowHint _ _ =>
      match s with Initialised => Some s | _ => None end
  | GlfwCreateWindow _ _ _ _ _ =>
      match s with
      | Initialised => Some (if window_of env =? NULL then Initialised else Windowed)
      | _ => None
      end
  | GlfwTerminate =>
      match s with Start | Terminated => None | _ => Some Terminated end
  | GlfwMakeContextCurrent w =>
      match s with
      | Windowed => if is_window env w then Some Current else None
      | _ => None
      end
  | GladLoadGLLoader _ =>
      match s with
      | Current => Some (if gladLoadGLLoader_result env then Loaded else Current)
      | _ => None
      end
  | GlfwSetFramebufferSizeCallback w _ | GlfwWindowShouldClose w | GlfwGetKey w _
  | GlfwSetWindowShouldClose w _ | GlfwSwapBuffers w =>
      match s with
      | Current | Loaded => if is_window env w then Some s else None
      | _ => None
      end
  | GlfwPollEvents =>
      match s with Current | Loaded => Some s | _ => None end
  | _ =>
      match s with Loaded => Some s | _ => None end
  end.

(** Where a run leaves the libraries. *)
Definition final_stage (env : Env) (result : option Z) : Stage :=
  if negb (glfwInit_result env) then Start
  else if window_of env =? NULL then Terminated
  else if negb (gladLoadGLLoader_result env) then Current
  else match result with Some _ => Terminated | None => Loaded end.

(** *** Lifetime of the vertex array, the buffer and the program *)

Inductive Life : Type := Unborn | Alive | Dead.

(** The name OpenGL gave the object of kind [k]. *)
Definition name_of (env : Env) (k : GLObject) : Z :=
  match k with
  | VertexArray => VAO_of env
  | VertexBuffer => VBO_of env
  | ShaderProgram => shaderProgram_of env
  end.

(** The object of kind [k] that a call names. *)
Definition named (k : GLObject) (e : Event) : option Z :=
  match k, e with
  | VertexArray, GlBindVertexArray a
  | VertexArray, GlDeleteVertexArrays _ a => Some a
  | VertexBuffer, GlBindBuffer _ a
  | VertexBuffer, GlDeleteBuffers _ a => Some a
  | ShaderProgram, GlAttachShader a _
  | ShaderProgram, GlLinkProgram a
  | ShaderProgram, GlGetProgramiv a _
  | ShaderProgram, GlGetProgramInfoLog a _
  | ShaderProgram, GlUseProgram a
  | ShaderProgram, GlDeleteProgram a => Some a
  | _, _ => None
  end.

(** An object is created once; a call may name it only while it is
    alive, and by the name OpenGL gave it; deleting it ends its life. *)
Definition life_step (env : Env) (k : GLObject) (s : Life) (e : Event) : option Life :=
  if creates k e then
    match s with Unborn => Some Alive | _ => None end
  else
    match named k e with
    | None => Some s
    | Some x =>
        match s with
        | Alive =>
            if x =? name_of env k
            then Some (if deletes k e then Dead else Alive)
            else None
        | _ => None
        end
    end.

Definition final_life (env : Env) (result : option Z) : Life :=
  if boots env then match result with Some _ => Dead | None => Alive end
  else Unborn.

(** *** What is bound when a call needs it *)





(** *** The two shader objects *)

Inductive ShaderStage : Type :=
| NoShader | Created | Sourced | Compiled
| Queried      (* its compile status has been asked for *)
| Reported     (* and, the test having failed, its log *)
| Attached | Deleted.

Inductive LinkStage : Type :=
| NotLinked | Linked
| LinkQueried    (* the link status has been asked for *)
| LinkReported.  (* and, the test having failed, the log *)

Record Shaders : Type := {
  vertex_stage : ShaderStage;
  fragment_stage : ShaderStage;
  link_stage : LinkStage
}.

Definition no_shaders : Shaders :=
  {| vertex_stage := NoShader; fragment_stage := NoShader; link_stage := NotLinked |}.

(** Both shaders deleted, the link made and checked. *)
Definition shaders_done (env : Env) : Shaders :=
  {| vertex_stage := Deleted; fragment_stage := Deleted;
     link_stage := if link_failed env then LinkReported else LinkQueried |}.

(** The link has been made and its check is over: the status has been
    asked for, and the log when the test failed. *)
Definition link_checked (failed : bool) (l : LinkStage) : bool :=
  match l with
  | LinkQueried => negb failed
  | LinkReported => true
  | _ => false
  end.

(** One shader, [failed] telling how the program's test of its status
    comes out: it gets its own source, once, is compiled, is asked for
    its compile status, is asked for its log exactly when the test
    fails, is attached after that, and is deleted only once the link has
    been made and checked. *)
Definition stage_step (source : string) (failed link_over : bool) (s : ShaderStage)
  (e : Event) : option ShaderStage :=
  match e, s with
  | GlShaderSource _ count text _, Created =>
      if (count =? 1) && String.eqb text source then Some Sourced else None
  | GlCompileShader _, Sourced => Some Compiled
  | GlGetShaderiv _ GL_COMPILE_STATUS, Compiled => Some Queried
  | GlGetShaderInfoLog _ _, Queried => if failed then Some Reported else None
  | GlAttachShader _ _, Queried => if failed then None else Some Attached
  | GlAttachShader _ _, Reported => Some Attached
  | GlDeleteShader _, Attached => if link_over then Some Deleted else None
  | _, _ => None
  end.

(** The link: made with both shaders attached, then asked for its
    status, then for its log exactly when the test of the status fails. *)
Definition link_step (failed : bool) (s : Shaders) (e : Event) : option LinkStage :=
  match e, link_stage s with
  | GlLinkProgram _, NotLinked =>
      match vertex_stage s, fragment_stage s with
      | Attached, Attached => Some Linked
      | _, _ => None
      end
  | GlGetProgramiv _ GL_LINK_STATUS, Linked => Some LinkQueried
  | GlGetProgramInfoLog _ _, LinkQueried => if failed then Some LinkReported else None
  | _, _ => None
  end.

(** The shader a call names. *)
Definition shader_named (e : Event) : option Z :=
  match e with
  | GlShaderSource x _ _ _ | GlCompileShader x | GlGetShaderiv x _
  | GlGetShaderInfoLog x _ | GlAttachShader _ x | GlDeleteShader x => Some x
  | _ => None
  end.

(** Both shaders and the link. *)
Definition shader_step (env : Env) (s : Shaders) (e : Event) : option Shaders :=
  match e with
  | GlCreateShader GL_VERTEX_SHADER =>
      match vertex_stage s with
      | NoShader => Some {| vertex_stage := Created;
                            fragment_stage := fragment_stage s;
                            link_stage := link_stage s |}
      | _ => None
      end
  | GlCreateShader GL_FRAGMENT_SHADER =>
      match fragment_stage s with
      | NoShader => Some {| vertex_stage := vertex_stage s;
                            fragment_stage := Created;
                            link_stage := link_stage s |}
      | _ => None
      end
  | GlCreateShader _ => None
  | GlLinkProgram _ | GlGetProgramiv _ _ | GlGetProgramInfoLog _ _ =>
      match link_step (link_failed env) s e with
      | Some l => Some {| vertex_stage := vertex_stage s;
                          fragment_stage := fragment_stage s;
                          link_stage := l |}
      | None => None
      end
  | _ =>
      match shader_named e with
      | None => Some s
      | Some x =>
          let link_over := link_checked (link_failed env) (link_stage s) in
          if x =? vertexShader_of env then
            match stage_step vertexShaderSource (vertex_failed env) link_over
                    (vertex_stage s) e with
            | Some v => Some {| vertex_stage := v;
                                fragment_stage := fragment_stage s;
                                link_stage := link_stage s |}
            | None => None
            end
          else if x =? fragmentShader_of env then
            match stage_step fragmentShaderSource (fragment_failed env) link_over
                    (fragment_stage s) e with
            | Some f => Some {| vertex_stage := vertex_stage s;
                                fragment_stage := f;
                                link_stage := link_stage s |}
            | None => None
            end
          else None
      end
  end.

(** ** More environments *)

(** The user closes the window during the event poll of frame [i]. *)
Definition close_at (i : nat) (j : nat) : bool := Nat.eqb i j.

(** Nobody touches the keyboard; the window is closed in its third frame
    after being resized twice in the second, once to nothing. *)
Definition env_closed : Env :=
  {| glfwInit_result := true;
     glfwCreateWindow_result := 4096;
     gladLoadGLLoader_result := true;
     gen_vertex_array := 1;
     gen_buffer := 1;
     create_shader := fun type => match type with GL_VERTEX_SHADER => 1 | _ => 2 end;
     create_program := 3;
     shader_iv := fun _ _ => Some 1;
     shader_info_log := fun _ => Some "";
     program_iv := fun _ _ => Some 1;
     program_info_log := fun _ => Some "";
     uninitialised_success := 7;
     uninitialised_infoLog := "?";
     key_state := released;
     close_requested := close_at 2;
     resize_events := fun i => if Nat.eqb i 1 then [(640, 480); (0, 0)] else [] |}.

(** The vertex shader does not compile and [glCreateShader] fails for the
    fragment shader: it returns 0, on which every query raises an error. *)
Definition env_stale : Env :=
  {| glfwInit_result := true;
     glfwCreateWindow_result := 4096;
     gladLoadGLLoader_result := true;
     gen_vertex_array := 1;
     gen_buffer := 1;
     create_shader := fun type => match type with GL_VERTEX_SHADER => 1 | _ => 0 end;
     create_program := 3;
     shader_iv := fun shader _ => if shader =? 1 then Some 0 else None;
     shader_info_log :=
       fun shader => if shader =? 1 then Some "0:1(1): error: syntax error" else None;
     program_iv := fun _ _ => Some 1;
     program_info_log := fun _ => Some "";
     uninitialised_success := 7;
     uninitialised_infoLog := "?";
     key_state := escape_at 1;
     close_requested := fun _ => false;
     resize_events := fun _ => [] |}.

(** [glCreateShader] fails for the vertex shader and [success] happens to
    start as 0. *)
Definition env_unwritten : Env :=
  {| glfwInit_result := true;
     glfwCreateWindow_result := 4096;
     gladLoadGLLoader_result := true;
     gen_vertex_array := 1;
     gen_buffer := 1;
     create_shader := fun type => match type with GL_VERTEX_SHADER => 0 | _ => 2 end;
     create_program := 3;
     shader_iv := fun shader _ => if shader =? 2 then Some 1 else None;
     shader_info_log := fun shader => if shader =? 2 then Some "" else None;
     program_iv := fun _ _ => Some 1;
     program_info_log := fun _ => Some "";
     uninitialised_success := 0;
     uninitialised_infoLog := "?";
     key_state := escape_at 1;
     close_requested := fun _ => false;
     resize_events := fun _ => [] |}.

(** ** The program on these environments *)

(** Escape in the second frame: two frames are drawn, then the clean-up. *)
Example run_escape :
  value (run env_escape 3) = Some 0 /\
  skipn 39 (calls (run env_escape 3)) =
    [ GlfwWindowShouldClose 4096; GlfwGetKey 4096 GLFW_KEY_ESCAPE;
      GlfwSetWindowShouldClose 4096 true; GlClear GL_COLOR_BUFFER_BIT;
      GlUseProgram 3; GlBindVertexArray 1; GlDrawArrays GL_TRIANGLES 0 3;
      GlfwSwapBuffers 4096; GlfwPollEvents;
      GlfwWindowShouldClose 4096;
      GlDeleteVertexArrays 1 1; GlDeleteBuffers 1 1; GlDeleteProgram 3;
      GlfwTerminate ].
Proof. split; reflexivity. Qed.

(** The first frame, with the resize that its event poll delivers. *)
Example run_first_frame :
  firstn 9 (skipn 30 (calls (run env_escape 3))) =
    [ GlfwWindowShouldClose 4096; GlfwGetKey 4096 GLFW_KEY_ESCAPE;
      GlClear GL_COLOR_BUFFER_BIT; GlUseProgram 3; GlBindVertexArray 1;
      GlDrawArrays GL_TRIANGLES 0 3; GlfwSwapBuffers 4096; GlfwPollEvents;
      GlViewport 0 0 1024 768 ].
Proof. reflexivity. Qed.

(** With nobody to close the window the loop uses up any fuel. *)
Example run_forever :
  value (run env_forever 10) = None /\
  count is_swap (calls (run env_forever 10)) = 10%nat.
Proof. split; reflexivity. Qed.

(** A failed compile and a failed link are reported, and the loop runs. *)
Example run_bad_shader :
  filter is_cerr (calls (run env_bad_shader 3)) =
    [ Cerr "ERROR::VERTEX_SHADER_COMPILATION_FAILED
0:1(1): error: syntax error
";
      Cerr "ERROR::SHADER_PROGRAM_LINKING_FAILED
error: linking with uncompiled shader
" ] /\
  count is_swap (calls (run env_bad_shader 3)) = 2%nat.
Proof. split; reflexivity. Qed.

(** A query that raises an error leaves [success] and [infoLog] as the
    step before left them: the fragment step is reported as failed, with
    the log of the vertex shader. *)
Example run_stale_status :
  names_valid env_stale = false /\
  filter is_cerr (calls (run env_stale 3)) =
    [ Cerr "ERROR::VERTEX_SHADER_COMPILATION_FAILED
0:1(1): error: syntax error
";
      Cerr "ERROR::FRAGMENT_SHADER_COMPILATION_FAILED
0:1(1): error: syntax error
" ].
Proof. split; reflexivity. Qed.

(** When the first query raises an error the test is on what [success]
    held at its declaration, and the report prints what [infoLog] held. *)
Example run_unwritten_status :
  filter is_cerr (calls (run env_unwritten 3)) =
    [ Cerr "ERROR::VERTEX_SHADER_COMPILATION_FAILED
?
" ].
Proof. reflexivity. Qed.

(** A build that skips the status queries is not let through. *)
Example queries_are_required :
  monitor (shader_step env_closed) no_shaders
    (filter (fun e => match e with
                      | GlGetShaderiv _ _ | GlGetProgramiv _ _ => false
                      | _ => true
                      end) (setup_calls env_closed)) = None.
Proof. reflexivity. Qed.

(** A log of 600 characters is cut to its first 511. *)
Example long_log_is_cut :
  String.length
    (copy_info_log 512 (string_of_list_ascii (repeat "x"%char 600))) = 511%nat.
Proof. reflexivity. Qed.

(** ** Running the phases *)

Section Phases.

Variable env : Env.

Lemma bind_run {A B} (m : M A) (f : A -> M B) w a w' tr :
  m w = mkResult (Some a) w' tr -> bind m f w = prepend tr (f a w').
Proof. intros H. unfold bind. rewrite H. reflexivity. Qed.

Lemma upload_geometry_run w :
  upload_geometry env w = mkResult (Some (VAO_of env, VBO_of env)) w (geometry_calls env).
Proof. reflexivity. Qed.

Lemma build_program_run w :
  build_program env w = mkResult (Some (shaderProgram_of env)) w (shader_calls env).
Proof.
  unfold build_program, shader_calls, on_failure, failure_report.
  unfold link_infoLog, fragment_infoLog, vertex_infoLog.
  unfold link_failed, fragment_failed, vertex_failed.
  cbv [bind call prepend glCreateShader glShaderSource glCompileShader glGetShaderiv
       glGetShaderInfoLog cerr ret glCreateProgram glAttachShader glLinkProgram
       glGetProgramiv glGetProgramInfoLog glDeleteShader].
  fold (vertexShader_of env). fold (fragmentShader_of env). fold (shaderProgram_of env).
  fold (vertex_success env). fold (fragment_success env). fold (link_success env).
  destruct (vertex_success env =? 0), (fragment_success env =? 0),
    (link_success env =? 0); reflexivity.
Qed.

Lemma dispatch_run cb window sizes w :
  dispatch cb window sizes w = mkResult (Some tt) w (map viewport_call sizes).
Proof.
  induction sizes as [|size rest IH]; [reflexivity|].
  destruct cb. cbn [dispatch]. unfold bind. cbn. rewrite IH. reflexivity.
Qed.

Lemma frame_run i :
  frame env (window_of env) (shaderProgram_of env) (VAO_of env) (world_at env i)
  = mkResult (Some tt) (world_at env (S i)) (frame_calls env i).
Proof.
  unfold frame, frame_calls, world_at, escape_pressed.
  cbv [bind call prepend glfwGetKey glClear glUseProgram glBindVertexArray glDrawArrays
       glfwSwapBuffers].
  cbn [polls shouldClose framebufferSizeCallback].
  destruct (KeyAction_eqb (key_state env i GLFW_KEY_ESCAPE) GLFW_PRESS) eqn:K;
    cbv [glfwSetWindowShouldClose ret glfwPollEvents];
    cbn [polls shouldClose framebufferSizeCallback];
    rewrite dispatch_run; cbn [close_flag app];
    unfold closes_after, escape_pressed; rewrite K;
    [ rewrite orb_true_r | rewrite orb_false_l ]; reflexivity.
Qed.

End Phases.

(** ** The loop and the whole run *)

Section Runs.

Variable env : Env.

Lemma close_flag_mono i j :
  (i <= j)%nat -> close_flag env i = true -> close_flag env j = true.
Proof.
  induction 1 as [|j _ IH]; [trivial|].
  intros H. cbn. rewrite (IH H). reflexivity.
Qed.

(** From the top of iteration [p], the loop runs [n] more iterations; it
    either leaves with the flag set or stops for want of fuel. *)
Lemma render_loop_run fuel : forall p,
  exists (n : nat) (exited : bool),
    render_loop env fuel (window_of env) (shaderProgram_of env) (VAO_of env) (world_at env p)
    = mkResult (if exited then Some tt else None) (world_at env (p + n))
        (flat_map (iteration env) (seq p n) ++
         (if exited then [GlfwWindowShouldClose (window_of env)] else []))
    /\ (forall i, (p <= i < p + n)%nat -> close_flag env i = false)
    /\ (if exited then close_flag env (p + n) = true /\ (n < fuel)%nat else n = fuel).
Proof.
  induction fuel as [|fuel IH]; intros p.
  - exists 0%nat, false. rewrite Nat.add_0_r. cbn. repeat split. intros i Hi. lia.
  - destruct (close_flag env p) eqn:Hp.
    + exists 0%nat, true. rewrite Nat.add_0_r.
      cbn [render_loop]. unfold bind, glfwWindowShouldClose.
      cbn [shouldClose world_at]. rewrite Hp. cbn.
      repeat split; solve [lia | exact Hp].
    + destruct (IH (S p)) as (n & exited & Hrun & Hopen & Hend).
      exists (S n), exited.
      replace (p + S n)%nat with (S p + n)%nat by lia.
      split; [|split].
      * cbn [render_loop]. unfold bind at 1. unfold glfwWindowShouldClose at 1.
        cbn [shouldClose world_at]. rewrite Hp.
        fold (world_at env p).
        rewrite (bind_run _ _ _ _ _ _ (frame_run env p)). rewrite Hrun.
        cbn [prepend seq flat_map iteration app].
        rewrite <- !app_assoc. reflexivity.
      * intros i Hi. destruct (Nat.eq_dec i p) as [->|Hne]; [exact Hp|].
        apply Hopen. lia.
      * destruct exited; [split; [apply Hend | lia] | now f_equal].
Qed.

Lemma boots_inv : boots env = true ->
  glfwInit_result env = true /\ (window_of env =? NULL) = false /\
  gladLoadGLLoader_result env = true.
Proof.
  unfold boots. intros H.
  apply andb_prop in H as [H H3]. apply andb_prop in H as [H1 H2].
  apply negb_true_iff in H2. auto.
Qed.

(** The whole run, when the three initialisations succeed. *)
Lemma run_boots fuel : boots env = true ->
  exists (n : nat) (exited : bool),
    run env fuel = mkResult (if exited then Some 0 else None) (world_at env n)
                     (run_calls env n exited)
    /\ (forall i, (i < n)%nat -> close_flag env i = false)
    /\ (if exited then close_flag env n = true /\ (n < fuel)%nat else n = fuel).
Proof.
  intros Hb. apply boots_inv in Hb as (H1 & H2 & H3).
  destruct (render_loop_run fuel 0) as (n & exited & Hrun & Hopen & Hend).
  exists n, exited. cbn [Nat.add] in *.
  split; [|split; [intros i Hi; apply Hopen; lia | exact Hend]].
  unfold run, main.
  unfold bind at 1. unfold glfwInit at 1. unfold call at 1. rewrite H1. cbn [negb].
  do 3 (unfold bind at 1; unfold glfwWindowHint at 1; unfold call at 1).
  unfold bind at 1. unfold glfwCreateWindow at 1. unfold call at 1.
  unfold window_of in H2. rewrite H2.
  unfold bind at 1. unfold glfwMakeContextCurrent at 1. unfold call at 1.
  unfold bind at 1. unfold glfwSetFramebufferSizeCallback at 1.
  unfold bind at 1. unfold gladLoadGLLoader at 1. unfold call at 1. rewrite H3. cbn [negb].
  unfold bind at 1. rewrite upload_geometry_run. cbn [fst snd].
  unfold bind at 1. rewrite build_program_run.
  unfold bind at 1.
  change {| shouldClose := shouldClose initial_world; polls := polls initial_world;
            framebufferSizeCallback := Some framebuffer_size_callback_ptr |}
    with (world_at env 0).
  fold (window_of env). fold (VAO_of env). rewrite Hrun.
  unfold run_calls, setup_calls, bootstrap_calls, exit_calls, cleanup_calls.
  destruct exited; cbn; rewrite <- ?app_assoc; reflexivity.
Qed.

End Runs.

(** ** The early exits and the normal exit *)

Section Exits.

Variable env : Env.

Lemma run_init_fails fuel :
  glfwInit_result env = false ->
  run env fuel = mkResult (Some (-1)) initial_world [GlfwInit].
Proof.
  intros H. unfold run, main.
  unfold bind at 1. unfold glfwInit at 1. unfold call at 1. rewrite H. reflexivity.
Qed.

Lemma run_window_fails fuel :
  glfwInit_result env = true -> window_of env = NULL ->
  run env fuel = mkResult (Some (-1)) initial_world window_failure_calls.
Proof.
  intros H1 H2. unfold run, main.
  unfold bind at 1. unfold glfwInit at 1. unfold call at 1. rewrite H1. cbn [negb].
  do 3 (unfold bind at 1; unfold glfwWindowHint at 1; unfold call at 1).
  unfold bind at 1. unfold glfwCreateWindow at 1. unfold call at 1.
  unfold window_of in H2. rewrite H2. reflexivity.
Qed.

Lemma run_loader_fails fuel :
  glfwInit_result env = true -> window_of env <> NULL ->
  gladLoadGLLoader_result env = false ->
  run env fuel = mkResult (Some (-1)) world_registered (loader_failure_calls env).
Proof.
  intros H1 H2 H3. apply Z.eqb_neq in H2. unfold run, main.
  unfold bind at 1. unfold glfwInit at 1. unfold call at 1. rewrite H1. cbn [negb].
  do 3 (unfold bind at 1; unfold glfwWindowHint at 1; unfold call at 1).
  unfold bind at 1. unfold glfwCreateWindow at 1. unfold call at 1.
  unfold window_of in H2. rewrite H2.
  unfold bind at 1. unfold glfwMakeContextCurrent at 1. unfold call at 1.
  unfold bind at 1. unfold glfwSetFramebufferSizeCallback at 1.
  unfold bind at 1. unfold gladLoadGLLoader at 1. unfold call at 1. rewrite H3.
  reflexivity.
Qed.

Lemma path_cases :
  glfwInit_result env = false
  \/ (glfwInit_result env = true /\ window_of env = NULL)
  \/ (glfwInit_result env = true /\ window_of env <> NULL /\
      gladLoadGLLoader_result env = false)
  \/ boots env = true.
Proof.
  unfold boots.
  destruct (glfwInit_result env); [|now left].
  destruct (window_of env =? NULL) eqn:W.
  - apply Z.eqb_eq in W. right; left. auto.
  - apply Z.eqb_neq in W.
    destruct (gladLoadGLLoader_result env); [now right; right; right|].
    right; right; left. auto.
Qed.

(** With the flag raised after [n] frames and fuel for more than [n]
    evaluations of the loop condition, the run leaves the loop and ends. *)
Lemma run_exits n fuel :
  boots env = true -> close_flag env n = true -> (n < fuel)%nat ->
  exists m, (m <= n)%nat
    /\ run env fuel = mkResult (Some 0) (world_at env m) (run_calls env m true)
    /\ (forall i, (i < m)%nat -> close_flag env i = false)
    /\ close_flag env m = true.
Proof.
  intros Hb Hn Hfuel.
  destruct (run_boots env fuel Hb) as (m & exited & Hrun & Hopen & Hend).
  destruct exited.
  - destruct Hend as [Hm _]. exists m. repeat split; try assumption.
    destruct (le_lt_dec m n) as [Hle|Hlt]; [exact Hle|].
    rewrite (Hopen n Hlt) in Hn. discriminate.
  - subst m. rewrite (Hopen n Hfuel) in Hn. discriminate.
Qed.

(** The first frame after which the flag is raised is the last one. *)
Lemma run_exits_at n fuel :
  boots env = true -> close_flag env n = false -> closes_after env n = true ->
  (S n < fuel)%nat ->
  run env fuel = mkResult (Some 0) (world_at env (S n)) (run_calls env (S n) true).
Proof.
  intros Hb Hopen Hclose Hfuel.
  assert (Hflag : close_flag env (S n) = true)
    by (cbn; rewrite Hclose; apply orb_true_r).
  destruct (run_exits (S n) fuel Hb Hflag Hfuel) as (m & Hle & Hrun & _ & Hm).
  assert (m = S n) as ->; [|exact Hrun].
  destruct (le_lt_dec m n) as [Hmn|Hmn]; [|lia].
  rewrite (close_flag_mono env m n Hmn Hm) in Hopen. discriminate.
Qed.

(** A run that returns 0 has booted and left the loop with the flag set. *)
Lemma run_zero fuel :
  value (run env fuel) = Some 0 ->
  boots env = true /\
  exists n, close_flag env n = true
    /\ (forall i, (i < n)%nat -> close_flag env i = false)
    /\ (n < fuel)%nat
    /\ run env fuel = mkResult (Some 0) (world_at env n) (run_calls env n true).
Proof.
  intros Hv.
  destruct path_cases as [H|[[H1 H2]|[(H1 & H2 & H3)|Hb]]].
  - rewrite (run_init_fails fuel H) in Hv. discriminate.
  - rewrite (run_window_fails fuel H1 H2) in Hv. discriminate.
  - rewrite (run_loader_fails fuel H1 H2 H3) in Hv. discriminate.
  - split; [exact Hb|].
    destruct (run_boots env fuel Hb) as (n & exited & Hrun & Hopen & Hend).
    rewrite Hrun in Hv. destruct exited; [|discriminate].
    destruct Hend as [Hn Hfuel]. exists n. auto.
Qed.

End Exits.

(** ** Lists of calls *)

Section Lists.

Variable env : Env.

Lemma filter_none (p q : Event -> bool) (l : list Event) :
  Forall (fun e => q e = true) l -> (forall e, q e = true -> p e = false) ->
  filter p l = [].
Proof.
  intros Hl Hpq. induction Hl as [|e l He _ IH]; [reflexivity|].
  cbn. rewrite (Hpq e He). exact IH.
Qed.

Lemma frame_calls_loop i : Forall (fun e => loop_event e = true) (frame_calls env i).
Proof.
  unfold frame_calls. constructor; [reflexivity|].
  apply Forall_app; split; [destruct (escape_pressed env i); repeat constructor|].
  apply Forall_app; split; [repeat constructor|].
  apply Forall_forall. intros e He. apply in_map_iff in He as (size & <- & _). reflexivity.
Qed.

Lemma iterations_loop l : Forall (fun e => loop_event e = true) (flat_map (iteration env) l).
Proof.
  induction l as [|i l IH]; [constructor|].
  cbn [flat_map]. apply Forall_app; split; [|exact IH].
  unfold iteration. constructor; [reflexivity | apply frame_calls_loop].
Qed.

Lemma filter_iterations (p : Event -> bool) l :
  (forall e, loop_event e = true -> p e = false) ->
  filter p (flat_map (iteration env) l) = [].
Proof. intros H. exact (filter_none p loop_event _ (iterations_loop l) H). Qed.

Lemma iterations_snoc n :
  flat_map (iteration env) (seq 0 (S n))
  = flat_map (iteration env) (seq 0 n) ++ iteration env n.
Proof. rewrite seq_S, flat_map_app. cbn. rewrite app_nil_r. reflexivity. Qed.

Lemma deletes_not_in_loop k e : loop_event e = true -> deletes k e = false.
Proof. destruct e, k; intros H; try discriminate H; reflexivity. Qed.

Lemma creates_not_in_loop k e : loop_event e = true -> creates k e = false.
Proof. destruct e, k; intros H; try discriminate H; reflexivity. Qed.

Lemma terminate_not_in_loop e : loop_event e = true -> is_terminate e = false.
Proof. destruct e; intros H; try discriminate H; reflexivity. Qed.

Lemma cerr_not_in_loop e : loop_event e = true -> is_cerr e = false.
Proof. destruct e; intros H; try discriminate H; reflexivity. Qed.

Lemma writes_buffer_not_in_loop e : loop_event e = true -> writes_buffer e = false.
Proof. destruct e; intros H; try discriminate H; reflexivity. Qed.

Lemma sets_attribute_not_in_loop e : loop_event e = true -> sets_attribute e = false.
Proof. destruct e; intros H; try discriminate H; reflexivity. Qed.

(** What the set-up contributes to each observation. *)
Lemma setup_creates k : filter (creates k) (setup_calls env) = [creation_call k].
Proof.
  unfold setup_calls, shader_calls, on_failure. rewrite !filter_app.
  destruct (vertex_failed env), (fragment_failed env), (link_failed env), k; reflexivity.
Qed.

Lemma setup_deletes k : filter (deletes k) (setup_calls env) = [].
Proof.
  unfold setup_calls, shader_calls, on_failure. rewrite !filter_app.
  destruct (vertex_failed env), (fragment_failed env), (link_failed env), k; reflexivity.
Qed.

Lemma setup_terminate : filter is_terminate (setup_calls env) = [].
Proof.
  unfold setup_calls, shader_calls, on_failure. rewrite !filter_app.
  destruct (vertex_failed env), (fragment_failed env), (link_failed env); reflexivity.
Qed.

End Lists.

(** ** The frame loop *)

(** C1. A run that boots makes the set-up calls and then goes round the
    loop: each iteration tests the close flag (found unset), polls Escape
    and sets the close flag if it is pressed, clears the color buffer,
    binds the program, binds the vertex array, draws one triangle over 3
    vertices from index 0, swaps the buffers and polls the window events
    (which runs the resize callback on each pending size).  The loop goes
    on exactly while the flag is unset: it stops at the first test that
    finds it set, or when the fuel is spent. *)
Theorem frame_loop_steps (env : Env) (fuel : nat) :
  boots env = true ->
  exists (n : nat) (rest : list Event),
    calls (run env fuel) =
      setup_calls env ++
      flat_map (fun i =>
        [ GlfwWindowShouldClose (window_of env);
          GlfwGetKey (window_of env) GLFW_KEY_ESCAPE ] ++
        (if escape_pressed env i
         then [GlfwSetWindowShouldClose (window_of env) true] else []) ++
        [ GlClear GL_COLOR_BUFFER_BIT;
          GlUseProgram (shaderProgram_of env);
          GlBindVertexArray (VAO_of env);
          GlDrawArrays GL_TRIANGLES 0 3;
          GlfwSwapBuffers (window_of env);
          GlfwPollEvents ] ++
        map viewport_call (resize_events env i)) (seq 0 n) ++
      rest
    /\ (forall i, (i < n)%nat -> close_flag env i = false)
    /\ (rest = [] /\ value (run env fuel) = None /\ n = fuel
        \/ rest = exit_calls env /\ value (run env fuel) = Some 0
           /\ close_flag env n = true).
Proof.
  intros Hb.
  destruct (run_boots env fuel Hb) as (n & exited & Hrun & Hopen & Hend).
  exists n, (if exited then exit_calls env else []).
  rewrite Hrun. cbn [calls value]. split; [reflexivity|]. split; [exact Hopen|].
  destruct exited; [right | left]; intuition.
Qed.

Lemma frame_loop_steps_witness :
  boots env_escape = true /\
  exists n rest,
    calls (run env_escape 5)
    = setup_calls env_escape ++ flat_map (iteration env_escape) (seq 0 n) ++ rest
    /\ (rest = [] \/ rest = exit_calls env_escape).
Proof.
  split; [reflexivity|].
  destruct (frame_loop_steps env_escape 5 eq_refl) as (n & rest & H & _ & Hrest).
  exists n, rest. split; [exact H|].
  destruct Hrest as [(-> & _)|(-> & _)]; [left | right]; reflexivity.
Defined.

(** C5. When Escape is down in an iteration, the close flag is set and the
    iteration goes on to the end (clear, bind, draw, swap, event poll);
    the next thing the program does is test the flag, find it set and
    leave the loop. *)
Theorem escape_completes_frame (env : Env) (i fuel : nat) :
  boots env = true ->
  close_flag env i = false ->
  escape_pressed env i = true ->
  (S i < fuel)%nat ->
  calls (run env fuel) =
    setup_calls env ++
    flat_map (iteration env) (seq 0 i) ++
    [ GlfwWindowShouldClose (window_of env);
      GlfwGetKey (window_of env) GLFW_KEY_ESCAPE;
      GlfwSetWindowShouldClose (window_of env) true;
      GlClear GL_COLOR_BUFFER_BIT;
      GlUseProgram (shaderProgram_of env);
      GlBindVertexArray (VAO_of env);
      GlDrawArrays GL_TRIANGLES 0 3;
      GlfwSwapBuffers (window_of env);
      GlfwPollEvents ] ++
    map viewport_call (resize_events env i) ++
    exit_calls env
  /\ value (run env fuel) = Some 0
  /\ shouldClose (world (run env fuel)) = true.
Proof.
  intros Hb Hopen Hesc Hfuel.
  assert (Hclose : closes_after env i = true)
    by (unfold closes_after; rewrite Hesc; reflexivity).
  rewrite (run_exits_at env i fuel Hb Hopen Hclose Hfuel). cbn [calls value world].
  split; [|split; [reflexivity|]].
  - unfold run_calls. rewrite iterations_snoc.
    unfold iteration at 2. unfold frame_calls. rewrite Hesc.
    rewrite <- !app_assoc. reflexivity.
  - cbn. rewrite Hclose. apply orb_true_r.
Qed.

Lemma escape_completes_frame_witness :
  boots env_escape = true /\ close_flag env_escape 1 = false /\
  escape_pressed env_escape 1 = true /\
  value (run env_escape 3) = Some 0 /\
  count (fun e => match e with GlDrawArrays _ _ _ => true | _ => false end)
        (calls (run env_escape 3)) = 2%nat.
Proof.
  assert (Hfuel : (2 < 3)%nat) by (apply le_n).
  destruct (escape_completes_frame env_escape 1 3 eq_refl eq_refl eq_refl Hfuel)
    as (H & Hv & _).
  split; [reflexivity|]. split; [reflexivity|]. split; [reflexivity|].
  split; [exact Hv|]. rewrite H. reflexivity.
Defined.

(** ** Exit paths *)

(** C3. When [glfwInit] fails the process returns -1 at once; when the
    window cannot be created it calls [glfwTerminate] and returns -1;
    when the loader fails it writes a message to standard error and
    returns -1.  A run returns 0 only after booting and leaving the loop
    with the close flag set, and no run returns anything but 0 or -1. *)
Theorem fatal_initialisation_failures (env : Env) (fuel : nat) :
  (glfwInit_result env = false ->
     run env fuel = mkResult (Some (-1)) initial_world [GlfwInit])
  /\ (glfwInit_result env = true -> window_of env = NULL ->
      value (run env fuel) = Some (-1) /\
      calls (run env fuel) =
        GlfwInit :: hint_calls ++
        [GlfwCreateWindow 800 600 "Triangulo OpenGL" NULL NULL; GlfwTerminate])
  /\ (glfwInit_result env = true -> window_of env <> NULL ->
      gladLoadGLLoader_result env = false ->
      value (run env fuel) = Some (-1) /\
      calls (run env fuel) =
        bootstrap_calls env ++ [Cerr ("Failed to initialize GLAD" ++ newline)%string])
  /\ (value (run env fuel) = Some 0 ->
      boots env = true /\
      exists n, close_flag env n = true /\ (n < fuel)%nat /\
                calls (run env fuel) = run_calls env n true)
  /\ (forall code, value (run env fuel) = Some code -> code = 0 \/ code = -1).
Proof.
  split; [exact (run_init_fails env fuel)|].
  split; [intros H1 H2; rewrite (run_window_fails env fuel H1 H2); split; reflexivity|].
  split; [intros H1 H2 H3; rewrite (run_loader_fails env fuel H1 H2 H3); split; reflexivity|].
  split.
  - intros Hv. destruct (run_zero env fuel Hv) as (Hb & n & Hn & _ & Hfuel & Hrun).
    split; [exact Hb|]. exists n. rewrite Hrun. auto.
  - intros code.
    destruct (path_cases env) as [H|[[H1 H2]|[(H1 & H2 & H3)|Hb]]].
    + rewrite (run_init_fails env fuel H). cbn. intros [= <-]. now right.
    + rewrite (run_window_fails env fuel H1 H2). cbn. intros [= <-]. now right.
    + rewrite (run_loader_fails env fuel H1 H2 H3). cbn. intros [= <-]. now right.
    + destruct (run_boots env fuel Hb) as (n & exited & Hrun & _).
      rewrite Hrun. destruct exited; cbn; [intros [= <-]; now left | discriminate].
Qed.

Lemma fatal_initialisation_failures_witness :
  run env_no_glfw 3 = mkResult (Some (-1)) initial_world [GlfwInit]
  /\ value (run env_no_window 3) = Some (-1)
  /\ value (run env_no_loader 3) = Some (-1)
  /\ boots env_escape = true.
Proof.
  destruct (fatal_initialisation_failures env_no_glfw 3) as (H1 & _).
  destruct (fatal_initialisation_failures env_no_window 3) as (_ & H2 & _).
  destruct (fatal_initialisation_failures env_no_loader 3) as (_ & _ & H3 & _).
  destruct (fatal_initialisation_failures env_escape 3) as (_ & _ & _ & H4 & _).
  split; [exact (H1 eq_refl)|].
  split; [exact (proj1 (H2 eq_refl eq_refl))|].
  split; [refine (proj1 (H3 eq_refl _ eq_refl)); discriminate|].
  exact (proj1 (H4 eq_refl)).
Defined.

(** C10. On the loader-failure path the process returns -1 having created
    the window and made its context current, and it never calls
    [glfwTerminate]; on the window-creation failure path [glfwTerminate]
    is the last call before the process returns -1. *)
Theorem loader_failure_skips_terminate (env : Env) (fuel : nat) :
  glfwInit_result env = true -> window_of env <> NULL ->
  gladLoadGLLoader_result env = false ->
  value (run env fuel) = Some (-1)
  /\ count is_terminate (calls (run env fuel)) = 0%nat
  /\ In (GlfwCreateWindow 800 600 "Triangulo OpenGL" NULL NULL) (calls (run env fuel))
  /\ In (GlfwMakeContextCurrent (window_of env)) (calls (run env fuel))
  /\ (forall env' fuel',
        glfwInit_result env' = true -> window_of env' = NULL ->
        value (run env' fuel') = Some (-1) /\
        exists before, calls (run env' fuel') = before ++ [GlfwTerminate]).
Proof.
  intros H1 H2 H3. rewrite (run_loader_fails env fuel H1 H2 H3). cbn [value calls].
  split; [reflexivity|]. split; [reflexivity|].
  split; [cbn; tauto|]. split; [cbn; tauto|].
  intros env' fuel' H1' H2'. rewrite (run_window_fails env' fuel' H1' H2').
  split; [reflexivity|].
  exists (GlfwInit :: hint_calls ++ [GlfwCreateWindow 800 600 "Triangulo OpenGL" NULL NULL]).
  reflexivity.
Qed.

Lemma loader_failure_skips_terminate_witness :
  glfwInit_result env_no_loader = true /\ window_of env_no_loader <> NULL /\
  gladLoadGLLoader_result env_no_loader = false /\
  count is_terminate (calls (run env_no_loader 3)) = 0%nat /\
  count is_terminate (calls (run env_no_window 3)) = 1%nat.
Proof.
  assert (Hw : window_of env_no_loader <> NULL) by discriminate.
  destruct (loader_failure_skips_terminate env_no_loader 3 eq_refl Hw eq_refl)
    as (_ & H & _ & _ & Hwin).
  split; [reflexivity|]. split; [exact Hw|]. split; [reflexivity|].
  split; [exact H|].
  destruct (Hwin env_no_window 3%nat eq_refl eq_refl) as (_ & before & Hcalls).
  reflexivity.
Defined.

(** C4. When the window gets closed (the flag is raised after some
    frame) and the fuel lasts that long, the program leaves the loop,
    calls [glDeleteVertexArrays], [glDeleteBuffers], [glDeleteProgram]
    and [glfwTerminate] in that order and returns 0; before these four
    calls it made no delete call and no [glfwTerminate], so the whole run
    has exactly one delete call for each of the three objects. *)
Theorem cleanup_on_normal_exit (env : Env) (n fuel : nat) :
  boots env = true -> close_flag env n = true -> (n < fuel)%nat ->
  value (run env fuel) = Some 0
  /\ (exists before,
        calls (run env fuel) =
          before ++
          [ GlDeleteVertexArrays 1 (VAO_of env);
            GlDeleteBuffers 1 (VBO_of env);
            GlDeleteProgram (shaderProgram_of env);
            GlfwTerminate ]
        /\ (forall k, filter (deletes k) before = [])
        /\ filter is_terminate before = [])
  /\ (forall k, count (deletes k) (calls (run env fuel)) = 1%nat)
  /\ count is_terminate (calls (run env fuel)) = 1%nat.
Proof.
  intros Hb Hn Hfuel.
  destruct (run_exits env n fuel Hb Hn Hfuel) as (m & _ & Hrun & _ & _).
  rewrite Hrun. cbn [value calls]. unfold run_calls, exit_calls, cleanup_calls.
  assert (Hdel : forall k,
    filter (deletes k)
      (setup_calls env ++ flat_map (iteration env) (seq 0 m) ++
       [GlfwWindowShouldClose (window_of env)]) = []).
  { intros k. rewrite !filter_app, setup_deletes.
    rewrite (filter_iterations env (deletes k) _ (deletes_not_in_loop k)).
    destruct k; reflexivity. }
  assert (Hterm :
    filter is_terminate
      (setup_calls env ++ flat_map (iteration env) (seq 0 m) ++
       [GlfwWindowShouldClose (window_of env)]) = []).
  { rewrite !filter_app, setup_terminate.
    rewrite (filter_iterations env is_terminate _ terminate_not_in_loop). reflexivity. }
  split; [reflexivity|]. split; [|split].
  - exists (setup_calls env ++ flat_map (iteration env) (seq 0 m) ++
            [GlfwWindowShouldClose (window_of env)]).
    split; [|split; [exact Hdel | exact Hterm]].
    rewrite <- !app_assoc. reflexivity.
  - intros k. unfold count.
    change (GlfwWindowShouldClose (window_of env) ::
            [GlDeleteVertexArrays 1 (VAO_of env); GlDeleteBuffers 1 (VBO_of env);
             GlDeleteProgram (shaderProgram_of env); GlfwTerminate])
      with ([GlfwWindowShouldClose (window_of env)] ++
            [GlDeleteVertexArrays 1 (VAO_of env); GlDeleteBuffers 1 (VBO_of env);
             GlDeleteProgram (shaderProgram_of env); GlfwTerminate]).
    rewrite !app_assoc, filter_app, <- !app_assoc, (Hdel k).
    destruct k; reflexivity.
  - unfold count.
    change (GlfwWindowShouldClose (window_of env) ::
            [GlDeleteVertexArrays 1 (VAO_of env); GlDeleteBuffers 1 (VBO_of env);
             GlDeleteProgram (shaderProgram_of env); GlfwTerminate])
      with ([GlfwWindowShouldClose (window_of env)] ++
            [GlDeleteVertexArrays 1 (VAO_of env); GlDeleteBuffers 1 (VBO_of env);
             GlDeleteProgram (shaderProgram_of env); GlfwTerminate]).
    rewrite !app_assoc, filter_app, <- !app_assoc, Hterm. reflexivity.
Qed.

Lemma cleanup_on_normal_exit_witness :
  boots env_escape = true /\ close_flag env_escape 2 = true /\
  value (run env_escape 3) = Some 0 /\
  forall k, count (deletes k) (calls (run env_escape 3)) = 1%nat.
Proof.
  assert (Hfuel : (2 < 3)%nat) by (apply le_n).
  destruct (cleanup_on_normal_exit env_escape 2 3 eq_refl eq_refl Hfuel)
    as (Hv & _ & Hcount & _).
  split; [reflexivity|]. split; [reflexivity|]. split; [exact Hv | exact Hcount].
Defined.

(** ** Shader build failures *)

Lemma substring_prefix_length (n : nat) : forall s : string,
  (String.length (substring 0 n s) <= n)%nat /\ prefix (substring 0 n s) s = true.
Proof.
  induction n as [|n IH]; intros [|c s]; cbn; try (split; [lia | reflexivity]).
  destruct (IH s) as [Hlen Hpre]. split; [lia|].
  destruct (ascii_dec c c) as [_|Hc]; [exact Hpre | now elim Hc].
Qed.

Lemma setup_cerr (env : Env) :
  filter is_cerr (setup_calls env) =
    (if vertex_failed env
     then [Cerr (failure_report "ERROR::VERTEX_SHADER_COMPILATION_FAILED"
                   (vertex_infoLog env))] else []) ++
    (if fragment_failed env
     then [Cerr (failure_report "ERROR::FRAGMENT_SHADER_COMPILATION_FAILED"
                   (fragment_infoLog env))] else []) ++
    (if link_failed env
     then [Cerr (failure_report "ERROR::SHADER_PROGRAM_LINKING_FAILED"
                   (link_infoLog env))] else []).
Proof.
  unfold setup_calls, shader_calls, on_failure. rewrite !filter_app.
  destruct (vertex_failed env), (fragment_failed env), (link_failed env); reflexivity.
Qed.


(** With valid names each test is on the status OpenGL reported for its
    own step, and a failed step prints its own log. *)
Lemma valid_answers (env : Env) :
  names_valid env = true ->
  exists sv lv sf lf sl ll,
    shader_iv env (vertexShader_of env) GL_COMPILE_STATUS = Some sv
    /\ shader_info_log env (vertexShader_of env) = Some lv
    /\ shader_iv env (fragmentShader_of env) GL_COMPILE_STATUS = Some sf
    /\ shader_info_log env (fragmentShader_of env) = Some lf
    /\ program_iv env (shaderProgram_of env) GL_LINK_STATUS = Some sl
    /\ program_info_log env (shaderProgram_of env) = Some ll
    /\ vertex_failed env = (sv =? 0) /\ fragment_failed env = (sf =? 0)
    /\ link_failed env = (sl =? 0)
    /\ (vertex_failed env = true -> vertex_infoLog env = substring 0 511 lv)
    /\ (fragment_failed env = true -> fragment_infoLog env = substring 0 511 lf)
    /\ (link_failed env = true -> link_infoLog env = substring 0 511 ll).
Proof.
  unfold names_valid, link_infoLog, fragment_infoLog, vertex_infoLog,
    link_failed, fragment_failed, vertex_failed,
    link_success, fragment_success, vertex_success.
  destruct (shader_iv env (vertexShader_of env) GL_COMPILE_STATUS) as [sv|];
    [|discriminate].
  destruct (shader_info_log env (vertexShader_of env)) as [lv|]; [|discriminate].
  destruct (shader_iv env (fragmentShader_of env) GL_COMPILE_STATUS) as [sf|];
    [|discriminate].
  destruct (shader_info_log env (fragmentShader_of env)) as [lf|]; [|discriminate].
  destruct (program_iv env (shaderProgram_of env) GL_LINK_STATUS) as [sl|];
    [|discriminate].
  destruct (program_info_log env (shaderProgram_of env)) as [ll|]; [|discriminate].
  intros _. exists sv, lv, sf, lf, sl, ll. cbn [read_back option_map].
  repeat split; intros ->; reflexivity.
Qed.




(** ** Lifetime of the GPU objects *)

Lemma count_app (p : Event -> bool) (l1 l2 : list Event) :
  count p (l1 ++ l2) = (count p l1 + count p l2)%nat.
Proof. unfold count. rewrite filter_app, length_app. reflexivity. Qed.

(** Creation in the first part, deletion in the second: at every cut of
    the list at most one object is alive. *)
Lemma counts_at_cut (c d : Event -> bool) (A B pre suf : list Event) :
  A ++ B = pre ++ suf ->
  count d A = 0%nat -> (count c A <= 1)%nat ->
  count c B = 0%nat -> (count d B <= count c A)%nat ->
  (count d pre <= count c pre <= 1)%nat.
Proof.
  intros Heq HdA HcA HcB HdB.
  apply app_eq_app in Heq as (l & [[-> ->]|[-> ->]]);
    rewrite ?count_app in *; lia.
Qed.

(** C6, as first stated, fails on the early exits: it is not so that every
    run that returns has deleted each object exactly once, nor that
    exactly one object of each kind exists at every point of every run.
    When [glfwInit] fails the process returns without a single create or
    delete call. *)
Lemma early_exit_deletes_nothing :
  ~ (forall (env : Env) (fuel : nat) (k : GLObject),
       value (run env fuel) <> None ->
       count (deletes k) (calls (run env fuel)) = 1%nat)
  /\ ~ (forall (env : Env) (fuel : nat) (k : GLObject) (pre suf : list Event),
          calls (run env fuel) = pre ++ suf ->
          (count (creates k) pre - count (deletes k) pre = 1)%nat).
Proof.
  split; intros H.
  - specialize (H env_no_glfw 0%nat VertexBuffer).
    cbn in H. discriminate H. discriminate.
  - specialize (H env_no_glfw 0%nat VertexBuffer [GlfwInit] [] eq_refl).
    cbn in H. discriminate H.
Qed.

(** C6, amended.  At every point of a run at most one object of each kind
    exists.  A run that boots creates each object once, in the set-up
    that precedes the first iteration; nothing is deleted during set-up
    or in the loop, and the normal exit that follows the loop deletes
    each object once.  A run that does not boot returns -1 and neither
    creates nor deletes any object. *)
Theorem object_lifecycle (env : Env) (fuel : nat) (k : GLObject) :
  (forall pre suf, calls (run env fuel) = pre ++ suf ->
     (count (deletes k) pre <= count (creates k) pre <= 1)%nat)
  /\ (boots env = true ->
      exists n rest,
        calls (run env fuel)
        = setup_calls env ++ flat_map (iteration env) (seq 0 n) ++ rest
        /\ filter (creates k) (setup_calls env) = [creation_call k]
        /\ filter (creates k) (flat_map (iteration env) (seq 0 n) ++ rest) = []
        /\ filter (deletes k) (setup_calls env ++ flat_map (iteration env) (seq 0 n)) = []
        /\ (value (run env fuel) = None /\ rest = []
            \/ value (run env fuel) = Some 0 /\ rest = exit_calls env /\
               filter (deletes k) rest = [deletion_call env k]))
  /\ (boots env = false ->
      value (run env fuel) = Some (-1)
      /\ filter (creates k) (calls (run env fuel)) = []
      /\ filter (deletes k) (calls (run env fuel)) = []).
Proof.
  assert (Hearly : boots env = false ->
    value (run env fuel) = Some (-1)
    /\ filter (creates k) (calls (run env fuel)) = []
    /\ filter (deletes k) (calls (run env fuel)) = []).
  { intros Hb.
    destruct (path_cases env) as [H|[[H1 H2]|[(H1 & H2 & H3)|Hb']]].
    - rewrite (run_init_fails env fuel H). destruct k; repeat split.
    - rewrite (run_window_fails env fuel H1 H2). destruct k; repeat split.
    - rewrite (run_loader_fails env fuel H1 H2 H3). destruct k; repeat split.
    - rewrite Hb in Hb'. discriminate. }
  assert (Hboot : boots env = true ->
    exists n rest,
      calls (run env fuel)
      = setup_calls env ++ flat_map (iteration env) (seq 0 n) ++ rest
      /\ filter (creates k) (setup_calls env) = [creation_call k]
      /\ filter (creates k) (flat_map (iteration env) (seq 0 n) ++ rest) = []
      /\ filter (deletes k) (setup_calls env ++ flat_map (iteration env) (seq 0 n)) = []
      /\ (value (run env fuel) = None /\ rest = []
          \/ value (run env fuel) = Some 0 /\ rest = exit_calls env /\
             filter (deletes k) rest = [deletion_call env k])).
  { intros Hb.
    destruct (run_boots env fuel Hb) as (n & exited & Hrun & _).
    exists n, (if exited then exit_calls env else []).
    rewrite Hrun. cbn [calls value].
    split; [reflexivity|]. split; [apply setup_creates|]. split; [|split].
    - rewrite filter_app, (filter_iterations env _ _ (creates_not_in_loop k)).
      destruct exited, k; reflexivity.
    - rewrite filter_app, setup_deletes.
      apply (filter_iterations env _ _ (deletes_not_in_loop k)).
    - destruct exited; [right | left]; repeat split. destruct k; reflexivity. }
  split; [|split; assumption].
  intros pre suf Hcut.
  destruct (boots env) eqn:Hb.
  - destruct (Hboot eq_refl) as (n & rest & Hcalls & Hc1 & Hc2 & Hd1 & Hrest).
    rewrite Hcalls, app_assoc in Hcut.
    apply (counts_at_cut (creates k) (deletes k) _ _ pre suf Hcut).
    + unfold count. rewrite Hd1. reflexivity.
    + unfold count. rewrite filter_app, Hc1.
      rewrite (filter_iterations env _ _ (creates_not_in_loop k)). cbn. lia.
    + rewrite filter_app in Hc2. apply app_eq_nil in Hc2 as [_ Hc2].
      unfold count. rewrite Hc2. reflexivity.
    + unfold count at 2. rewrite filter_app, Hc1.
      rewrite (filter_iterations env _ _ (creates_not_in_loop k)). cbn.
      destruct Hrest as [[_ ->]|(_ & _ & Hd)]; unfold count;
        [cbn; lia | rewrite Hd; cbn; lia].
  - destruct (Hearly eq_refl) as (_ & Hc & Hd).
    assert (count (creates k) pre = 0%nat /\ count (deletes k) pre = 0%nat) as [-> ->].
    { rewrite Hcut, filter_app in Hc, Hd.
      apply app_eq_nil in Hc as [Hc _]. apply app_eq_nil in Hd as [Hd _].
      unfold count. rewrite Hc, Hd. split; reflexivity. }
    lia.
Qed.

Lemma object_lifecycle_witness :
  boots env_escape = true /\ boots env_no_loader = false /\
  count (creates VertexBuffer) (calls (run env_escape 3)) = 1%nat /\
  count (deletes VertexBuffer) (calls (run env_no_loader 3)) = 0%nat.
Proof.
  destruct (object_lifecycle env_escape 3 VertexBuffer) as (Hcut & _ & _).
  destruct (object_lifecycle env_no_loader 3 VertexBuffer) as (_ & _ & Hearly).
  destruct (Hearly eq_refl) as (_ & _ & Hd).
  split; [reflexivity|]. split; [reflexivity|]. split; [reflexivity|].
  unfold count. rewrite Hd. reflexivity.
Defined.

(** ** The geometry *)

Lemma setup_writes_buffer (env : Env) :
  filter writes_buffer (setup_calls env)
  = [GlBufferData GL_ARRAY_BUFFER sizeof_vertices vertices GL_STATIC_DRAW].
Proof.
  unfold setup_calls, shader_calls, on_failure. rewrite !filter_app.
  destruct (vertex_failed env), (fragment_failed env), (link_failed env); reflexivity.
Qed.

Lemma setup_sets_attribute (env : Env) :
  filter sets_attribute (setup_calls env)
  = [ GlVertexAttribPointer 0 3 GL_FLOAT false (3 * sizeof_float) 0;
      GlEnableVertexAttribArray 0 ].
Proof.
  unfold setup_calls, shader_calls, on_failure. rewrite !filter_app.
  destruct (vertex_failed env), (fragment_failed env), (link_failed env); reflexivity.
Qed.

(** C7. The array has 9 floats, exact in binary32, which the layout of
    attribute 0 (3 floats per vertex, stride [3 * sizeof(float)], offset 0)
    reads as the vertices (-1/2,-1/2,0), (1/2,-1/2,0) and (0,1/2,0).  In a
    run that boots, the only call that writes a buffer is the one
    [glBufferData] of the set-up, which uploads the array to the buffer
    bound to GL_ARRAY_BUFFER with GL_STATIC_DRAW; the only calls that set
    an attribute are the [glVertexAttribPointer] and
    [glEnableVertexAttribArray] for slot 0 that follow it.  All of this
    precedes the shader build and the loop. *)
Theorem geometry_uploaded_once (env : Env) (fuel : nat) :
  boots env = true ->
  List.length vertices = 9%nat
  /\ forallb binary32_exact vertices = true
  /\ attribute_of_vertex vertices 3 (3 * sizeof_float) 0 0
     = [(-1 # 2)%Q; (-1 # 2)%Q; (0 # 1)%Q]
  /\ attribute_of_vertex vertices 3 (3 * sizeof_float) 0 1
     = [(1 # 2)%Q; (-1 # 2)%Q; (0 # 1)%Q]
  /\ attribute_of_vertex vertices 3 (3 * sizeof_float) 0 2
     = [(0 # 1)%Q; (1 # 2)%Q; (0 # 1)%Q]
  /\ filter writes_buffer (calls (run env fuel))
     = [GlBufferData GL_ARRAY_BUFFER (9 * sizeof_float) vertices GL_STATIC_DRAW]
  /\ filter sets_attribute (calls (run env fuel))
     = [ GlVertexAttribPointer 0 3 GL_FLOAT false (3 * sizeof_float) 0;
         GlEnableVertexAttribArray 0 ]
  /\ exists n rest,
       calls (run env fuel) =
         bootstrap_calls env ++
         [ GlGenVertexArrays 1;
           GlGenBuffers 1;
           GlBindVertexArray (VAO_of env);
           GlBindBuffer GL_ARRAY_BUFFER (VBO_of env);
           GlBufferData GL_ARRAY_BUFFER (9 * sizeof_float) vertices GL_STATIC_DRAW;
           GlVertexAttribPointer 0 3 GL_FLOAT false (3 * sizeof_float) 0;
           GlEnableVertexAttribArray 0 ] ++
         shader_calls env ++
         flat_map (iteration env) (seq 0 n) ++ rest
       /\ (rest = [] \/ rest = exit_calls env).
Proof.
  intros Hb.
  destruct (run_boots env fuel Hb) as (n & exited & Hrun & _).
  rewrite Hrun. cbn [calls]. unfold run_calls.
  do 5 (split; [reflexivity|]).
  split; [|split].
  - rewrite !filter_app, setup_writes_buffer.
    rewrite (filter_iterations env _ _ writes_buffer_not_in_loop).
    destruct exited; reflexivity.
  - rewrite !filter_app, setup_sets_attribute.
    rewrite (filter_iterations env _ _ sets_attribute_not_in_loop).
    destruct exited; reflexivity.
  - exists n, (if exited then exit_calls env else []).
    split; [|destruct exited; auto].
    unfold setup_calls. rewrite <- !app_assoc. reflexivity.
Qed.

Lemma geometry_uploaded_once_witness :
  boots env_forever = true /\
  count writes_buffer (calls (run env_forever 4)) = 1%nat /\
  value (run env_forever 4) = None.
Proof.
  destruct (geometry_uploaded_once env_forever 4 eq_refl)
    as (_ & _ & _ & _ & _ & H & _).
  split; [reflexivity|]. split; [unfold count; rewrite H|]; reflexivity.
Defined.

(** ** Determinism *)

Lemma gl_viewport_calls (sizes : list (Z * Z)) :
  filter is_gl (map viewport_call sizes) = map viewport_call sizes.
Proof. induction sizes as [|s l IH]; [reflexivity|]. cbn. rewrite IH. reflexivity. Qed.

Lemma gl_iteration (env : Env) (i : nat) :
  gl_calls (iteration env i) = gl_frame env i.
Proof.
  unfold gl_calls, iteration, frame_calls, gl_frame.
  cbn [filter is_gl]. rewrite !filter_app, gl_viewport_calls.
  destruct (escape_pressed env i); reflexivity.
Qed.

Lemma gl_iterations (env : Env) (l : list nat) :
  gl_calls (flat_map (iteration env) l) = flat_map (gl_frame env) l.
Proof.
  induction l as [|i l IH]; [reflexivity|].
  cbn [flat_map]. unfold gl_calls in *. rewrite filter_app, IH.
  fold (gl_calls (iteration env i)). rewrite gl_iteration. reflexivity.
Qed.

Lemma gl_setup_calls (env : Env) :
  gl_calls (setup_calls env)
  = gl_setup (VAO_of env) (VBO_of env) (vertexShader_of env) (fragmentShader_of env)
      (shaderProgram_of env) (vertex_failed env) (fragment_failed env) (link_failed env).
Proof.
  unfold gl_calls, setup_calls, shader_calls, on_failure, gl_setup.
  rewrite !filter_app.
  destruct (vertex_failed env), (fragment_failed env), (link_failed env); reflexivity.
Qed.

Lemma gl_run_calls (env : Env) (n : nat) (exited : bool) :
  gl_calls (run_calls env n exited)
  = gl_calls (setup_calls env) ++ flat_map (gl_frame env) (seq 0 n) ++
    (if exited then gl_calls (exit_calls env) else []).
Proof.
  unfold run_calls, gl_calls. rewrite !filter_app.
  fold (gl_calls (flat_map (iteration env) (seq 0 n))). rewrite gl_iterations.
  destruct exited; reflexivity.
Qed.

Section TwoRuns.

Variables env1 env2 : Env.
Hypothesis gpu : same_gpu env1 env2.
Hypothesis sizes : same_sizes env1 env2.

Lemma same_names :
  VAO_of env2 = VAO_of env1 /\ VBO_of env2 = VBO_of env1 /\
  vertexShader_of env2 = vertexShader_of env1 /\
  fragmentShader_of env2 = fragmentShader_of env1 /\
  shaderProgram_of env2 = shaderProgram_of env1.
Proof.
  destruct gpu as (H1 & H2 & H3 & H4 & _).
  unfold VAO_of, VBO_of, vertexShader_of, fragmentShader_of, shaderProgram_of.
  rewrite H1, H2, H4, !H3. repeat split.
Qed.

Lemma same_flags :
  vertex_failed env2 = vertex_failed env1 /\
  fragment_failed env2 = fragment_failed env1 /\
  link_failed env2 = link_failed env1.
Proof. destruct gpu as (_ & _ & _ & _ & -> & -> & ->). repeat split. Qed.

Lemma same_gl_setup : gl_calls (setup_calls env2) = gl_calls (setup_calls env1).
Proof.
  rewrite !gl_setup_calls.
  destruct same_names as (-> & -> & -> & -> & ->).
  destruct same_flags as (-> & -> & ->). reflexivity.
Qed.

Lemma same_gl_frame i : gl_frame env2 i = gl_frame env1 i.
Proof.
  unfold gl_frame. destruct same_names as (-> & _ & _ & _ & ->).
  rewrite (sizes i). reflexivity.
Qed.

Lemma same_gl_exit : gl_calls (exit_calls env2) = gl_calls (exit_calls env1).
Proof.
  unfold gl_calls, exit_calls, cleanup_calls. cbn.
  destruct same_names as (-> & -> & _ & _ & ->). reflexivity.
Qed.

End TwoRuns.

Lemma iteration_split (env : Env) (i : nat) :
  iteration env i
  = before_swap env i ++ GlfwSwapBuffers (window_of env) :: after_swap env i.
Proof.
  unfold iteration, frame_calls, before_swap, after_swap.
  destruct (escape_pressed env i); reflexivity.
Qed.

Lemma until_swap_app (k : nat) (l rest : list Event) :
  filter is_swap l = [] -> until_swap k (l ++ rest) = l ++ until_swap k rest.
Proof.
  induction l as [|e l IH]; [reflexivity|].
  cbn. destruct (is_swap e); [discriminate|].
  intros H. rewrite (IH H). reflexivity.
Qed.

Lemma before_swap_quiet (env : Env) (i : nat) : filter is_swap (before_swap env i) = [].
Proof. unfold before_swap. destruct (escape_pressed env i); reflexivity. Qed.

Lemma after_swap_quiet (env : Env) (i : nat) : filter is_swap (after_swap env i) = [].
Proof.
  unfold after_swap. cbn.
  induction (resize_events env i) as [|size l IH]; [reflexivity | exact IH].
Qed.

(** Frame [k] of a loop that runs more than [k] iterations from [p]. *)
Lemma until_swap_iterations (env : Env) (rest : list Event) :
  forall k n p, (k < n)%nat ->
  until_swap k (flat_map (iteration env) (seq p n) ++ rest)
  = flat_map (iteration env) (seq p k) ++
    before_swap env (p + k) ++ [GlfwSwapBuffers (window_of env)].
Proof.
  induction k as [|k IH]; intros [|n] p Hk; try lia.
  - cbn [seq flat_map]. rewrite Nat.add_0_r, iteration_split, <- !app_assoc.
    rewrite (until_swap_app _ _ _ (before_swap_quiet env p)). reflexivity.
  - cbn [seq flat_map]. rewrite iteration_split at 1. rewrite <- !app_assoc.
    rewrite (until_swap_app _ _ _ (before_swap_quiet env p)).
    cbn [app until_swap is_swap].
    rewrite (until_swap_app _ _ _ (after_swap_quiet env p)).
    rewrite (IH n (S p)) by lia.
    replace (S p + k)%nat with (p + S k)%nat by lia.
    rewrite iteration_split, <- !app_assoc. reflexivity.
Qed.

Lemma setup_quiet (env : Env) : filter is_swap (setup_calls env) = [].
Proof.
  unfold setup_calls, shader_calls, on_failure. rewrite !filter_app.
  destruct (vertex_failed env), (fragment_failed env), (link_failed env); reflexivity.
Qed.

Lemma swaps_of_iterations (env : Env) (l : list nat) :
  count is_swap (flat_map (iteration env) l) = List.length l.
Proof.
  induction l as [|i l IH]; [reflexivity|].
  cbn [flat_map List.length]. rewrite count_app, IH. f_equal.
  unfold count. rewrite iteration_split, filter_app, before_swap_quiet.
  cbn [filter is_swap app]. rewrite after_swap_quiet. reflexivity.
Qed.

(** A run presents as many frames as it goes round the loop. *)
Lemma swaps_of_run (env : Env) (n : nat) (exited : bool) :
  count is_swap (run_calls env n exited) = n.
Proof.
  unfold run_calls. rewrite !count_app, swaps_of_iterations, length_seq.
  unfold count at 1. rewrite setup_quiet. destruct exited; cbn; lia.
Qed.

Lemma gl_before_swap (env : Env) (i : nat) :
  gl_calls (before_swap env i ++ [GlfwSwapBuffers (window_of env)]) = gl_draw env.
Proof.
  unfold gl_calls, before_swap. destruct (escape_pressed env i); reflexivity.
Qed.

(** What OpenGL has been sent when frame [k] is presented. *)
Lemma gl_until_swap (env : Env) (fuel k : nat) :
  (k < count is_swap (calls (run env fuel)))%nat ->
  gl_calls (until_swap k (calls (run env fuel)))
  = gl_calls (setup_calls env) ++ flat_map (gl_frame env) (seq 0 k) ++ gl_draw env.
Proof.
  intros Hk.
  assert (Hb : boots env = true).
  { destruct (path_cases env) as [H|[[H1 H2]|[(H1 & H2 & H3)|Hb]]]; [| | |exact Hb];
      exfalso; revert Hk.
    - rewrite (run_init_fails env fuel H). cbn. lia.
    - rewrite (run_window_fails env fuel H1 H2). cbn. lia.
    - rewrite (run_loader_fails env fuel H1 H2 H3). cbn. lia. }
  destruct (run_boots env fuel Hb) as (n & exited & Hrun & _).
  rewrite Hrun in *. cbn [calls] in *. rewrite swaps_of_run in Hk.
  unfold run_calls. rewrite (until_swap_app _ _ _ (setup_quiet env)).
  rewrite (until_swap_iterations env _ k n 0 Hk). cbn [Nat.add].
  unfold gl_calls. rewrite !filter_app.
  fold (gl_calls (flat_map (iteration env) (seq 0 k))). rewrite gl_iterations.
  rewrite <- filter_app.
  fold (gl_calls (before_swap env k ++ [GlfwSwapBuffers (window_of env)])).
  rewrite gl_before_swap. reflexivity.
Qed.

(** X12. Take two runs in which OpenGL hands out the same names, the
    three status tests of the build come out the same and the window
    goes through the same framebuffer sizes; the keys pressed, the close
    requests, the window handle, the fuel and the number of frames may
    all differ.  Whenever both runs present frame [k], the OpenGL calls
    made up to that swap are the same list in both: the set-up with the
    embedded vertex data and shader sources, then for each earlier frame
    the same clear, program, vertex array and draw followed by the
    viewport updates of the resize callback, then the draw of frame [k].
    No OpenGL call depends on the keyboard, on a close request or on how
    long the program has run. *)
Theorem gl_calls_ignore_input (env1 env2 : Env) (fuel1 fuel2 k : nat) :
  same_gpu env1 env2 -> same_sizes env1 env2 ->
  (k < count is_swap (calls (run env1 fuel1)))%nat ->
  (k < count is_swap (calls (run env2 fuel2)))%nat ->
  gl_calls (until_swap k (calls (run env1 fuel1)))
  = gl_calls (until_swap k (calls (run env2 fuel2)))
  /\ gl_calls (until_swap k (calls (run env1 fuel1)))
     = gl_calls (setup_calls env1) ++
       flat_map (fun i =>
         [ GlClear GL_COLOR_BUFFER_BIT;
           GlUseProgram (shaderProgram_of env1);
           GlBindVertexArray (VAO_of env1);
           GlDrawArrays GL_TRIANGLES 0 3 ] ++
         map viewport_call (resize_events env1 i)) (seq 0 k) ++
       [ GlClear GL_COLOR_BUFFER_BIT;
         GlUseProgram (shaderProgram_of env1);
         GlBindVertexArray (VAO_of env1);
         GlDrawArrays GL_TRIANGLES 0 3 ].
Proof.
  intros Hgpu Hsizes Hk1 Hk2. split; [|exact (gl_until_swap env1 fuel1 k Hk1)].
  rewrite (gl_until_swap env1 fuel1 k Hk1), (gl_until_swap env2 fuel2 k Hk2).
  rewrite (same_gl_setup env1 env2 Hgpu).
  rewrite (flat_map_ext _ _ (same_gl_frame env1 env2 Hgpu Hsizes)).
  unfold gl_draw. destruct (same_names env1 env2 Hgpu) as (-> & _ & _ & _ & ->).
  reflexivity.
Qed.

Lemma gl_calls_ignore_input_witness :
  same_gpu env_escape env_forever /\ same_sizes env_escape env_forever /\
  (1 < count is_swap (calls (run env_escape 7)))%nat /\
  (1 < count is_swap (calls (run env_forever 4)))%nat /\
  gl_calls (until_swap 1 (calls (run env_escape 7)))
  = gl_calls (until_swap 1 (calls (run env_forever 4))).
Proof.
  assert (Hgpu : same_gpu env_escape env_forever) by (repeat split).
  assert (Hsizes : same_sizes env_escape env_forever) by (intros i; reflexivity).
  assert (H1 : (1 < count is_swap (calls (run env_escape 7)))%nat) by (apply le_n).
  assert (H2 : (1 < count is_swap (calls (run env_forever 4)))%nat)
    by (apply le_S, le_S, le_n).
  destruct (gl_calls_ignore_input env_escape env_forever 7 4 1 Hgpu Hsizes H1 H2)
    as (H & _).
  split; [exact Hgpu|]. split; [exact Hsizes|].
  split; [exact H1|]. split; [exact H2 | exact H].
Defined.

(** ** Runs checked call by call *)

Section MonitorFacts.

Context {State : Type} (step : State -> Event -> option State).

Lemma monitor_app (s : State) (a b : list Event) :
  monitor step s (a ++ b)
  = match monitor step s a with
    | Some s' => monitor step s' b
    | None => None
    end.
Proof.
  revert s. induction a as [|e a IH]; intros s; [reflexivity|].
  cbn. destruct (step s e) as [s'|]; [apply IH | reflexivity].
Qed.

(** Calls that leave the state as it is. *)
Lemma monitor_stable (s : State) (tr : list Event) :
  Forall (fun e => step s e = Some s) tr -> monitor step s tr = Some s.
Proof.
  induction 1 as [|e tr He _ IH]; [reflexivity|].
  cbn. rewrite He. exact IH.
Qed.

(** A call that was let through was allowed in the state it was made in. *)
Lemma monitor_split (s s' : State) (pre suf : list Event) (e : Event) :
  monitor step s (pre ++ e :: suf) = Some s' ->
  exists s1 s2, monitor step s pre = Some s1 /\ step s1 e = Some s2.
Proof.
  rewrite monitor_app. destruct (monitor step s pre) as [s1|]; [|discriminate].
  cbn. destruct (step s1 e) as [s2|] eqn:He; [|discriminate].
  intros _. exists s1, s2. auto.
Qed.

End MonitorFacts.

(** A property of the calls of an iteration follows from the property of
    the ten calls an iteration can make. *)
Lemma Forall_iteration (P : Event -> Prop) (env : Env) (i : nat) :
  P (GlfwWindowShouldClose (window_of env)) ->
  P (GlfwGetKey (window_of env) GLFW_KEY_ESCAPE) ->
  P (GlfwSetWindowShouldClose (window_of env) true) ->
  P (GlClear GL_COLOR_BUFFER_BIT) ->
  P (GlUseProgram (shaderProgram_of env)) ->
  P (GlBindVertexArray (VAO_of env)) ->
  P (GlDrawArrays GL_TRIANGLES 0 3) ->
  P (GlfwSwapBuffers (window_of env)) ->
  P GlfwPollEvents ->
  (forall width height, P (GlViewport 0 0 width height)) ->
  Forall P (iteration env i).
Proof.
  intros H1 H2 H3 H4 H5 H6 H7 H8 H9 H10.
  unfold iteration, frame_calls.
  constructor; [exact H1|]. constructor; [exact H2|].
  apply Forall_app; split; [destruct (escape_pressed env i); repeat constructor; exact H3|].
  apply Forall_app; split; [repeat constructor; assumption|].
  apply Forall_forall. intros e He. apply in_map_iff in He as (size & <- & _).
  apply H10.
Qed.

Lemma Forall_iterations (P : Event -> Prop) (env : Env) (l : list nat) :
  (forall i, Forall P (iteration env i)) -> Forall P (flat_map (iteration env) l).
Proof.
  intros H. induction l as [|i l IH]; [constructor|].
  cbn [flat_map]. apply Forall_app; split; [apply H | exact IH].
Qed.

Lemma Forall_setup (P : Event -> Prop) (env : Env) :
  Forall P (geometry_calls env) ->
  Forall P
    [ GlCreateShader GL_VERTEX_SHADER;
      GlShaderSource (vertexShader_of env) 1 vertexShaderSource NULL;
      GlCompileShader (vertexShader_of env);
      GlGetShaderiv (vertexShader_of env) GL_COMPILE_STATUS;
      GlCreateShader GL_FRAGMENT_SHADER;
      GlShaderSource (fragmentShader_of env) 1 fragmentShaderSource NULL;
      GlCompileShader (fragmentShader_of env);
      GlGetShaderiv (fragmentShader_of env) GL_COMPILE_STATUS;
      GlCreateProgram;
      GlAttachShader (shaderProgram_of env) (vertexShader_of env);
      GlAttachShader (shaderProgram_of env) (fragmentShader_of env);
      GlLinkProgram (shaderProgram_of env);
      GlGetProgramiv (shaderProgram_of env) GL_LINK_STATUS;
      GlDeleteShader (vertexShader_of env);
      GlDeleteShader (fragmentShader_of env);
      GlGetShaderInfoLog (vertexShader_of env) 512;
      GlGetShaderInfoLog (fragmentShader_of env) 512;
      GlGetProgramInfoLog (shaderProgram_of env) 512 ] ->
  (forall text, P (Cerr text)) ->
  Forall P (geometry_calls env ++ shader_calls env).
Proof.
  intros Hg Hs Hc. apply Forall_app; split; [exact Hg|].
  rewrite Forall_forall in Hs.
  unfold shader_calls, on_failure.
  destruct (vertex_failed env), (fragment_failed env), (link_failed env);
    cbn [app]; repeat (constructor; [first [apply Hc | apply Hs; cbn; tauto]|]);
    constructor.
Qed.

Section Protocol.

Variable env : Env.

Lemma is_window_created : window_of env <> NULL -> is_window env (window_of env) = true.
Proof.
  intros H. unfold is_window. rewrite Z.eqb_refl.
  apply Z.eqb_neq in H. rewrite H. reflexivity.
Qed.

Lemma protocol_bootstrap :
  boots env = true ->
  monitor (protocol_step env) Start (bootstrap_calls env) = Some Loaded.
Proof.
  intros Hb. apply boots_inv in Hb as (H1 & H2 & H3).
  assert (Hw := is_window_created (proj1 (Z.eqb_neq _ _) H2)).
  unfold bootstrap_calls. cbn -[Z.eqb is_window].
  repeat (first [rewrite H1 | rewrite H2 | rewrite Hw | rewrite H3];
          cbn -[Z.eqb is_window]).
  reflexivity.
Qed.

Lemma protocol_loaded (tr : list Event) :
  Forall (fun e => is_gl e = true \/ exists text, e = Cerr text) tr ->
  monitor (protocol_step env) Loaded tr = Some Loaded.
Proof.
  intros H. apply monitor_stable. revert H. apply Forall_impl.
  intros e [He|(text & ->)]; [|reflexivity].
  destruct e; try discriminate He; reflexivity.
Qed.

Lemma protocol_iterations (l : list nat) :
  window_of env <> NULL ->
  monitor (protocol_step env) Loaded (flat_map (iteration env) l) = Some Loaded.
Proof.
  intros Hw. apply is_window_created in Hw.
  apply monitor_stable, Forall_iterations. intros i.
  apply Forall_iteration; intros; cbn -[is_window]; rewrite ?Hw; reflexivity.
Qed.

End Protocol.

(** X2. In every run each library call is made only once the libraries
    are ready for it: window hints and window creation after a successful
    [glfwInit], calls on the window with the handle [glfwCreateWindow]
    returned and never with a null one, the loader with the context
    current, OpenGL calls only after the loader succeeded, and no call to
    either library after [glfwTerminate].  The run leaves GLFW terminated
    on the normal exit and after a failed window creation, untouched
    after a failed [glfwInit], and still up after a failed loader. *)
Theorem libraries_used_in_order (env : Env) (fuel : nat) :
  monitor (protocol_step env) Start (calls (run env fuel))
  = Some (final_stage env (value (run env fuel)))
  /\ (forall e s s', is_gl e = true -> protocol_step env s e = Some s' ->
        s = Loaded /\ s' = Loaded)
  /\ (forall e s', protocol_step env Terminated e = Some s' -> exists text, e = Cerr text).
Proof.
  split; [|split].
  - unfold final_stage.
    destruct (path_cases env) as [H|[[H1 H2]|[(H1 & H2 & H3)|Hb]]].
    + rewrite (run_init_fails env fuel H), H. cbn. rewrite H. reflexivity.
    + rewrite (run_window_fails env fuel H1 H2), H1, H2. cbn -[Z.eqb].
      rewrite H1, H2. reflexivity.
    + rewrite (run_loader_fails env fuel H1 H2 H3), H1, H3.
      rewrite (proj2 (Z.eqb_neq _ _) H2).
      assert (Hw := is_window_created env H2).
      unfold loader_failure_calls, bootstrap_calls. cbn -[Z.eqb is_window].
      repeat (first [rewrite H1 | rewrite (proj2 (Z.eqb_neq _ _) H2)
                    | rewrite Hw | rewrite H3];
              cbn -[Z.eqb is_window]).
      reflexivity.
    + destruct (run_boots env fuel Hb) as (n & exited & Hrun & _).
      rewrite Hrun. cbn [calls value].
      pose proof (boots_inv env Hb) as (H1 & H2 & H3). rewrite H1, H2, H3. cbn [negb].
      assert (Hnull : window_of env <> NULL) by (apply Z.eqb_neq; exact H2).
      unfold run_calls, setup_calls. rewrite <- !app_assoc, monitor_app.
      rewrite (protocol_bootstrap env Hb).
      rewrite app_assoc, monitor_app.
      rewrite protocol_loaded.
      * rewrite monitor_app, (protocol_iterations env _ Hnull).
        destruct exited; [|reflexivity].
        cbn -[is_window]. rewrite (is_window_created env Hnull). reflexivity.
      * apply Forall_setup; [repeat constructor; now left | repeat constructor; now left|].
        intros text. right. now exists text.
  - intros e s s' He Hstep.
    destruct e; try discriminate He; destruct s; try discriminate Hstep;
      cbn in Hstep; injection Hstep as <-; auto.
  - intros e s' Hstep. destruct e; try discriminate Hstep. now eexists.
Qed.

Lemma libraries_used_in_order_witness :
  monitor (protocol_step env_closed) Start (calls (run env_closed 5)) = Some Terminated
  /\ monitor (protocol_step env_no_loader) Start (calls (run env_no_loader 5)) = Some Current
  /\ protocol_step env_closed Current (GlClear GL_COLOR_BUFFER_BIT) = None.
Proof.
  destruct (libraries_used_in_order env_closed 5) as (H1 & Hgl & _).
  destruct (libraries_used_in_order env_no_loader 5) as (H2 & _ & _).
  split; [exact H1|]. split; [exact H2|].
  destruct (protocol_step env_closed Current (GlClear GL_COLOR_BUFFER_BIT)) as [s'|] eqn:Hs;
    [|reflexivity].
  destruct (Hgl (GlClear GL_COLOR_BUFFER_BIT) Current s' eq_refl Hs) as [Hc _].
  discriminate Hc.
Defined.

(** ** Lifetimes and bindings *)

Ltac run_monitor :=
  repeat (cbn -[Z.eqb String.eqb]; rewrite ?Z.eqb_refl, ?String.eqb_refl);
  try reflexivity.

Section Lifetimes.

Variable env : Env.

Lemma life_setup (k : GLObject) :
  monitor (life_step env k) Unborn (setup_calls env) = Some Alive.
Proof.
  unfold setup_calls, bootstrap_calls, geometry_calls, shader_calls, on_failure.
  destruct (vertex_failed env), (fragment_failed env), (link_failed env), k;
    run_monitor.
Qed.

Lemma life_iterations (k : GLObject) (l : list nat) :
  monitor (life_step env k) Alive (flat_map (iteration env) l) = Some Alive.
Proof.
  apply monitor_stable, Forall_iterations. intros i.
  apply Forall_iteration; intros; destruct k; run_monitor.
Qed.

Lemma life_exit (k : GLObject) :
  monitor (life_step env k) Alive (exit_calls env) = Some Dead.
Proof. unfold exit_calls, cleanup_calls. destruct k; run_monitor. Qed.



Lemma shader_setup :
  vertexShader_of env <> fragmentShader_of env ->
  monitor (shader_step env) no_shaders (setup_calls env) = Some (shaders_done env).
Proof.
  intros Hne.
  assert (Hfv : (fragmentShader_of env =? vertexShader_of env) = false)
    by (apply Z.eqb_neq; congruence).
  unfold shaders_done, setup_calls, bootstrap_calls, geometry_calls, shader_calls,
    on_failure.
  destruct (vertex_failed env) eqn:Ev, (fragment_failed env) eqn:Ef,
    (link_failed env) eqn:El;
    repeat (cbn -[Z.eqb String.eqb];
            rewrite ?Hfv, ?Z.eqb_refl, ?String.eqb_refl, ?Ev, ?Ef, ?El);
    reflexivity.
Qed.

Lemma shader_iterations (s : Shaders) (l : list nat) :
  monitor (shader_step env) s (flat_map (iteration env) l) = Some s.
Proof.
  apply monitor_stable, Forall_iterations. intros i.
  apply Forall_iteration; intros; reflexivity.
Qed.

End Lifetimes.

(** X3. In every run, the vertex array, the buffer and the program are
    each created at most once, every call that names one of them names
    the one OpenGL handed out, after its creation and before its
    deletion, and nothing is deleted twice or before it exists.  The
    object is dead at the normal exit, alive while the loop runs, and was
    never created on the early exits. *)
Theorem objects_used_while_alive (env : Env) (fuel : nat) (k : GLObject) :
  monitor (life_step env k) Unborn (calls (run env fuel))
  = Some (final_life env (value (run env fuel)))
  /\ (forall e x s s', creates k e = false -> named k e = Some x ->
        life_step env k s e = Some s' -> s = Alive /\ x = name_of env k)
  /\ (forall e s s', creates k e = true -> life_step env k s e = Some s' -> s = Unborn).
Proof.
  split; [|split].
  - unfold final_life.
    destruct (path_cases env) as [H|[[H1 H2]|[(H1 & H2 & H3)|Hb]]].
    + rewrite (run_init_fails env fuel H). unfold boots. rewrite H.
      destruct k; reflexivity.
    + rewrite (run_window_fails env fuel H1 H2). unfold boots. rewrite H1, H2.
      destruct k; reflexivity.
    + rewrite (run_loader_fails env fuel H1 H2 H3). unfold boots.
      rewrite H3, andb_false_r. destruct k; reflexivity.
    + destruct (run_boots env fuel Hb) as (n & exited & Hrun & _).
      rewrite Hrun, Hb. cbn [calls value]. unfold run_calls.
      rewrite monitor_app, life_setup, monitor_app, life_iterations.
      destruct exited; [apply life_exit | reflexivity].
  - intros e x s s' Hc Hn Hstep. unfold life_step in Hstep. rewrite Hc, Hn in Hstep.
    destruct s; try discriminate Hstep.
    destruct (x =? name_of env k) eqn:Hx; [|discriminate Hstep].
    apply Z.eqb_eq in Hx. auto.
  - intros e s s' Hc Hstep. unfold life_step in Hstep. rewrite Hc in Hstep.
    destruct s; [reflexivity | discriminate Hstep | discriminate Hstep].
Qed.

Lemma objects_used_while_alive_witness :
  monitor (life_step env_closed ShaderProgram) Unborn (calls (run env_closed 5)) = Some Dead
  /\ monitor (life_step env_forever ShaderProgram) Unborn (calls (run env_forever 5))
     = Some Alive
  /\ life_step env_closed ShaderProgram Dead (GlUseProgram 3) = None
  /\ life_step env_closed ShaderProgram Alive GlCreateProgram = None.
Proof.
  destruct (objects_used_while_alive env_closed 5 ShaderProgram) as (H1 & Huse & Hnew).
  destruct (objects_used_while_alive env_forever 5 ShaderProgram) as (H2 & _ & _).
  split; [exact H1|]. split; [exact H2|]. split.
  - destruct (life_step env_closed ShaderProgram Dead (GlUseProgram 3)) as [s'|] eqn:Hs;
      [|reflexivity].
    destruct (Huse (GlUseProgram 3) 3 Dead s' eq_refl eq_refl Hs) as [Hd _].
    discriminate Hd.
  - destruct (life_step env_closed ShaderProgram Alive GlCreateProgram) as [s'|] eqn:Hs;
      [|reflexivity].
    discriminate (Hnew GlCreateProgram Alive s' eq_refl Hs).
Defined.

Ltac split_test H :=
  match type of H with
  | (if ?c then _ else _) = _ => destruct c
  end.

Lemma attach_after_query source failed link_over s s' program shader :
  stage_step source failed link_over s (GlAttachShader program shader) = Some s' ->
  (s = Queried /\ failed = false) \/ s = Reported.
Proof. intros H. destruct s, failed; try discriminate H; auto. Qed.

Lemma queried_by_query source failed link_over s e :
  stage_step source failed link_over s e = Some Queried ->
  s = Compiled /\ exists shader, e = GlGetShaderiv shader GL_COMPILE_STATUS.
Proof.
  intros H. destruct e, s; try discriminate H.
  all: try (cbn in H; split_test H; discriminate H).
  all: destruct pname; try discriminate H.
  split; [reflexivity | eexists; reflexivity].
Qed.

Lemma reported_by_log source failed link_over s e :
  stage_step source failed link_over s e = Some Reported ->
  s = Queried /\ failed = true /\
  exists shader maxLength, e = GlGetShaderInfoLog shader maxLength.
Proof.
  intros H. destruct e, s; try discriminate H.
  all: try (destruct pname; discriminate H).
  all: cbn in H; split_test H; try discriminate H.
  repeat split. do 2 eexists. reflexivity.
Qed.

Lemma delete_after_link source failed link_over s s' shader :
  stage_step source failed link_over s (GlDeleteShader shader) = Some s' ->
  s = Attached /\ link_over = true.
Proof. intros H. destruct s, link_over; try discriminate H. auto. Qed.

Lemma link_checked_inv failed l :
  link_checked failed l = true ->
  (l = LinkQueried /\ failed = false) \/ l = LinkReported.
Proof. destruct l, failed; intros H; try discriminate H; auto. Qed.

Lemma link_queried_by_query failed s e :
  link_step failed s e = Some LinkQueried ->
  link_stage s = Linked /\ exists program, e = GlGetProgramiv program GL_LINK_STATUS.
Proof.
  unfold link_step. intros H. destruct e, (link_stage s); try discriminate H.
  all: try (destruct (vertex_stage s), (fragment_stage s); discriminate H).
  all: try (destruct failed; discriminate H).
  all: destruct pname; try discriminate H.
  split; [reflexivity | eexists; reflexivity].
Qed.

Lemma linked_by_link failed s e :
  link_step failed s e = Some Linked ->
  vertex_stage s = Attached /\ fragment_stage s = Attached /\
  exists program, e = GlLinkProgram program.
Proof.
  unfold link_step. intros H. destruct e, (link_stage s); try discriminate H.
  all: try (destruct pname; discriminate H).
  all: try (destruct failed; discriminate H).
  destruct (vertex_stage s), (fragment_stage s); try discriminate H.
  repeat split. eexists. reflexivity.
Qed.

(** X4. When OpenGL gives the two shaders different names, a run that
    boots takes each shader through the same steps in order: created,
    given its own source (the vertex source to the vertex shader, the
    fragment source to the fragment shader), compiled, asked for its
    compile status, asked for its log exactly when the program's test of
    that status fails, attached.  The program is linked only with both
    attached, then asked for its link status, and for its log exactly
    when the test fails; each shader is deleted once, after that,
    whether or not it compiled.  The loop and the clean-up never touch a
    shader, and a run that does not boot never creates one.  No step can
    be left out: a shader is attached only after its status query, the
    link status is asked for only after the link, and a shader is deleted
    only after the link status has been asked for. *)
Theorem shaders_built_in_order (env : Env) (fuel : nat) :
  vertexShader_of env <> fragmentShader_of env ->
  monitor (shader_step env) no_shaders (calls (run env fuel))
  = Some (if boots env then shaders_done env else no_shaders)
  /\ (forall source failed link_over s s' program shader,
        stage_step source failed link_over s (GlAttachShader program shader) = Some s' ->
        (s = Queried /\ failed = false) \/ s = Reported)
  /\ (forall source failed link_over s e,
        stage_step source failed link_over s e = Some Queried ->
        s = Compiled /\ exists shader, e = GlGetShaderiv shader GL_COMPILE_STATUS)
  /\ (forall source failed link_over s e,
        stage_step source failed link_over s e = Some Reported ->
        s = Queried /\ failed = true /\
        exists shader maxLength, e = GlGetShaderInfoLog shader maxLength)
  /\ (forall source failed link_over s s' shader,
        stage_step source failed link_over s (GlDeleteShader shader) = Some s' ->
        s = Attached /\ link_over = true)
  /\ (forall failed l,
        link_checked failed l = true ->
        (l = LinkQueried /\ failed = false) \/ l = LinkReported)
  /\ (forall failed s e,
        link_step failed s e = Some LinkQueried ->
        link_stage s = Linked /\ exists program, e = GlGetProgramiv program GL_LINK_STATUS)
  /\ (forall failed s e,
        link_step failed s e = Some Linked ->
        vertex_stage s = Attached /\ fragment_stage s = Attached /\
        exists program, e = GlLinkProgram program).
Proof.
  intros Hne. split.
  - destruct (path_cases env) as [H|[[H1 H2]|[(H1 & H2 & H3)|Hb]]].
    + rewrite (run_init_fails env fuel H). unfold boots. rewrite H. reflexivity.
    + rewrite (run_window_fails env fuel H1 H2). unfold boots. rewrite H1, H2.
      reflexivity.
    + rewrite (run_loader_fails env fuel H1 H2 H3). unfold boots.
      rewrite H3, andb_false_r. reflexivity.
    + destruct (run_boots env fuel Hb) as (n & exited & Hrun & _).
      rewrite Hrun, Hb. cbn [calls]. unfold run_calls.
      rewrite monitor_app, (shader_setup env Hne), monitor_app, shader_iterations.
      destruct exited; reflexivity.
  - split; [exact attach_after_query|]. split; [exact queried_by_query|].
    split; [exact reported_by_log|]. split; [exact delete_after_link|].
    split; [exact link_checked_inv|]. split; [exact link_queried_by_query|].
    exact linked_by_link.
Qed.

Lemma shaders_built_in_order_witness :
  vertexShader_of env_bad_shader <> fragmentShader_of env_bad_shader /\
  monitor (shader_step env_bad_shader) no_shaders (calls (run env_bad_shader 4))
  = Some (shaders_done env_bad_shader) /\
  stage_step vertexShaderSource false false Compiled (GlAttachShader 3 1) = None.
Proof.
  assert (Hne : vertexShader_of env_bad_shader <> fragmentShader_of env_bad_shader)
    by discriminate.
  destruct (shaders_built_in_order env_bad_shader 4 Hne) as (H & Hattach & _).
  split; [exact Hne|]. split; [exact H|].
  destruct (stage_step vertexShaderSource false false Compiled (GlAttachShader 3 1))
    as [s'|] eqn:Hs; [|reflexivity].
  destruct (Hattach _ _ _ _ _ _ _ Hs) as [[Hq _]|Hr]; discriminate.
Defined.



(** ** Counting frames *)

Section Frames.

Variable env : Env.

Lemma count_iterations (p : Event -> bool) (l : list nat) :
  (forall i, count p (iteration env i) = 1%nat) ->
  count p (flat_map (iteration env) l) = List.length l.
Proof.
  intros Hiter. induction l as [|i l IH]; [reflexivity|].
  cbn [flat_map List.length]. rewrite count_app, Hiter, IH. reflexivity.
Qed.

(** A kind of call that every iteration makes once, and only the loop. *)
Lemma once_per_iteration (p : Event -> bool) (n : nat) (exited : bool) :
  filter p (setup_calls env) = [] ->
  (forall i, count p (iteration env i) = 1%nat) ->
  filter p (exit_calls env) = [] ->
  count p (run_calls env n exited) = n.
Proof.
  intros Hsetup Hiter Hexit. unfold run_calls.
  rewrite !count_app, (count_iterations p _ Hiter), length_seq.
  unfold count. rewrite Hsetup. destruct exited; [rewrite Hexit|]; cbn; lia.
Qed.

Lemma filter_viewports_nil (p : Event -> bool) (sizes : list (Z * Z)) :
  (forall size, p (viewport_call size) = false) ->
  filter p (map viewport_call sizes) = [].
Proof.
  intros Hp. induction sizes as [|size l IH]; [reflexivity|].
  cbn [map filter]. rewrite Hp. exact IH.
Qed.

End Frames.

Ltac setup_filter :=
  unfold setup_calls, shader_calls, on_failure; rewrite !filter_app;
  destruct (vertex_failed _), (fragment_failed _), (link_failed _); reflexivity.

Ltac iteration_filter :=
  unfold count, iteration, frame_calls; cbn [filter]; rewrite !filter_app;
  rewrite filter_viewports_nil by reflexivity;
  destruct (escape_pressed _ _); reflexivity.

Section FrameCounts.

Variable env : Env.

Lemma draws_of_run n exited : count is_draw (run_calls env n exited) = n.
Proof.
  apply once_per_iteration; [setup_filter | intros i; iteration_filter | reflexivity].
Qed.

Lemma clears_of_run n exited : count is_clear (run_calls env n exited) = n.
Proof.
  apply once_per_iteration; [setup_filter | intros i; iteration_filter | reflexivity].
Qed.

Lemma polls_of_run n exited : count is_poll (run_calls env n exited) = n.
Proof.
  apply once_per_iteration; [setup_filter | intros i; iteration_filter | reflexivity].
Qed.

Lemma key_polls_of_run n exited : count is_key_poll (run_calls env n exited) = n.
Proof.
  apply once_per_iteration; [setup_filter | intros i; iteration_filter | reflexivity].
Qed.

Lemma tests_of_run n exited :
  count is_test (run_calls env n exited) = if exited then S n else n.
Proof.
  assert (Hsetup : filter is_test (setup_calls env) = []) by setup_filter.
  unfold run_calls. rewrite !count_app, count_iterations, length_seq
    by (intros i; iteration_filter).
  unfold count. rewrite Hsetup. destruct exited; cbn; lia.
Qed.

(** No frame raises the close flag before frame [n]. *)
Lemma close_flag_false n :
  (forall i, (i < n)%nat -> closes_after env i = false) -> close_flag env n = false.
Proof.
  induction n as [|n IH]; intros H; [reflexivity|].
  cbn. rewrite IH, H by auto. reflexivity.
Qed.

End FrameCounts.

(** X11. In every run the frames are whole: there are as many keyboard
    polls, clears, draws and event polls as buffer swaps, also when the
    run never reaches the loop.  The close flag is tested once per frame,
    and once more when the run returns from the normal exit. *)
Theorem frames_are_whole (env : Env) (fuel : nat) :
  count is_key_poll (calls (run env fuel)) = count is_swap (calls (run env fuel))
  /\ count is_clear (calls (run env fuel)) = count is_swap (calls (run env fuel))
  /\ count is_draw (calls (run env fuel)) = count is_swap (calls (run env fuel))
  /\ count is_poll (calls (run env fuel)) = count is_swap (calls (run env fuel))
  /\ count is_test (calls (run env fuel))
     = (count is_swap (calls (run env fuel))
        + match value (run env fuel) with Some 0%Z => 1 | _ => 0 end)%nat.
Proof.
  destruct (path_cases env) as [H|[[H1 H2]|[(H1 & H2 & H3)|Hb]]].
  - rewrite (run_init_fails env fuel H). repeat split.
  - rewrite (run_window_fails env fuel H1 H2). repeat split.
  - rewrite (run_loader_fails env fuel H1 H2 H3). repeat split.
  - destruct (run_boots env fuel Hb) as (n & exited & Hrun & _).
    rewrite Hrun. cbn [calls value].
    rewrite key_polls_of_run, clears_of_run, draws_of_run, polls_of_run,
      tests_of_run, swaps_of_run.
    repeat split. destruct exited; cbn; lia.
Qed.

(** X6. When the first frame to raise the close flag (Escape down at its
    keyboard poll, or a close request in its event poll) is frame [n],
    the program draws and presents exactly [n + 1] frames and returns 0.
    So at least one frame is always drawn, also when Escape is held down
    or the window is closed from the very start. *)
Theorem frames_until_close (env : Env) (n fuel : nat) :
  boots env = true ->
  (forall i, (i < n)%nat -> closes_after env i = false) ->
  closes_after env n = true ->
  (S n < fuel)%nat ->
  value (run env fuel) = Some 0
  /\ count is_draw (calls (run env fuel)) = S n
  /\ count is_swap (calls (run env fuel)) = S n.
Proof.
  intros Hb Hopen Hclose Hfuel.
  rewrite (run_exits_at env n fuel Hb (close_flag_false env n Hopen) Hclose Hfuel).
  cbn [value calls]. rewrite draws_of_run, swaps_of_run. repeat split.
Qed.

Lemma frames_until_close_witness :
  boots env_closed = true /\ closes_after env_closed 2 = true /\
  count is_draw (calls (run env_closed 9)) = 3%nat.
Proof.
  assert (Hopen : forall i, (i < 2)%nat -> closes_after env_closed i = false).
  { intros [|[|i]] Hi; [reflexivity | reflexivity|].
    exfalso. apply (Nat.nlt_0_r i). apply Nat.succ_lt_mono, Nat.succ_lt_mono. exact Hi. }
  assert (Hfuel : (3 < 9)%nat) by (repeat constructor).
  destruct (frames_until_close env_closed 2 9 eq_refl Hopen eq_refl Hfuel) as (_ & H & _).
  split; [reflexivity|]. split; [reflexivity | exact H].
Defined.

(** X7. The loop has no exit of its own: when no frame ever raises the
    close flag, the run does not return however much fuel it gets, and
    it draws a frame for every unit of fuel. *)
Theorem never_closed_never_returns (env : Env) (fuel : nat) :
  boots env = true ->
  (forall i, closes_after env i = false) ->
  value (run env fuel) = None /\ count is_swap (calls (run env fuel)) = fuel.
Proof.
  intros Hb Hopen.
  destruct (run_boots env fuel Hb) as (n & exited & Hrun & _ & Hend).
  rewrite Hrun. cbn [value calls]. rewrite swaps_of_run.
  destruct exited; [|auto].
  destruct Hend as [Hn _].
  rewrite (close_flag_false env n (fun i _ => Hopen i)) in Hn. discriminate Hn.
Qed.

Lemma never_closed_never_returns_witness :
  boots env_forever = true /\ (forall i, closes_after env_forever i = false) /\
  value (run env_forever 6) = None.
Proof.
  assert (Hopen : forall i, closes_after env_forever i = false) by (intros i; reflexivity).
  split; [reflexivity|]. split; [exact Hopen|].
  exact (proj1 (never_closed_never_returns env_forever 6 eq_refl Hopen)).
Defined.

(** ** The resize callback and the close flag *)

Section Resizes.

Variable env : Env.




Lemma filter_flat_map (p : Event -> bool) (f g : nat -> list Event) (l : list nat) :
  (forall i, In i l -> filter p (f i) = g i) ->
  filter p (flat_map f l) = flat_map g l.
Proof.
  induction l as [|i l IH]; intros H; [reflexivity|].
  cbn [flat_map]. rewrite filter_app, (H i (or_introl eq_refl)), IH; [reflexivity|].
  intros j Hj. apply H. now right.
Qed.



Lemma set_close_of_iteration i :
  filter is_set_close (iteration env i)
  = if escape_pressed env i then [GlfwSetWindowShouldClose (window_of env) true] else [].
Proof.
  unfold iteration, frame_calls. cbn [filter is_set_close]. rewrite !filter_app.
  rewrite filter_viewports_nil by reflexivity.
  destruct (escape_pressed env i); reflexivity.
Qed.

(** A frame that leaves the flag down did not have Escape pressed. *)
Lemma open_frame_no_escape i :
  close_flag env (S i) = false -> escape_pressed env i = false.
Proof.
  cbn. unfold closes_after. intros H.
  apply orb_false_elim in H as [_ H]. apply orb_false_elim in H as [H _]. exact H.
Qed.

End Resizes.



(** X8. The program itself raises the close flag at most once in a run,
    always to true, and only in the last frame it draws, when Escape was
    down at that frame's keyboard poll; a run that ends because the user
    closed the window never calls [glfwSetWindowShouldClose]. *)
Theorem close_flag_set_once (env : Env) (fuel : nat) :
  filter is_set_close (calls (run env fuel))
  = match count is_swap (calls (run env fuel)) with
    | O => []
    | S m =>
        if escape_pressed env m
        then [GlfwSetWindowShouldClose (window_of env) true]
        else []
    end.
Proof.
  destruct (path_cases env) as [H|[[H1 H2]|[(H1 & H2 & H3)|Hb]]].
  - rewrite (run_init_fails env fuel H). reflexivity.
  - rewrite (run_window_fails env fuel H1 H2). reflexivity.
  - rewrite (run_loader_fails env fuel H1 H2 H3). reflexivity.
  - destruct (run_boots env fuel Hb) as (n & exited & Hrun & Hopen & _).
    rewrite Hrun. cbn [calls]. rewrite swaps_of_run.
    assert (Hsetup : filter is_set_close (setup_calls env) = []) by setup_filter.
    unfold run_calls. rewrite !filter_app, Hsetup.
    assert (Hexit : filter is_set_close (if exited then exit_calls env else []) = [])
      by (destruct exited; reflexivity).
    rewrite Hexit, app_nil_r. cbn [app].
    destruct n as [|m]; [reflexivity|].
    rewrite iterations_snoc, filter_app, set_close_of_iteration.
    rewrite (filter_flat_map _ _ (fun _ => []) (seq 0 m)).
    + induction (seq 0 m) as [|i l IH]; [reflexivity | exact IH].
    + intros i Hi. apply in_seq in Hi. rewrite set_close_of_iteration.
      rewrite (open_frame_no_escape env i); [reflexivity|]. apply Hopen. lia.
Qed.

(** ** Standard error and the draw range *)

Lemma length_append (s1 s2 : string) :
  String.length (s1 ++ s2)%string = (String.length s1 + String.length s2)%nat.
Proof. induction s1 as [|c s1 IH]; [reflexivity|]. cbn. rewrite IH. reflexivity. Qed.

Lemma failure_report_length (header infoLog : string) :
  String.length (failure_report header infoLog)
  = (String.length header + String.length infoLog + 2)%nat.
Proof.
  unfold failure_report. rewrite !length_append.
  change (String.length newline) with 1%nat. lia.
Qed.

(** What a run writes to standard error. *)
Lemma cerr_of_run (env : Env) (fuel : nat) :
  filter is_cerr (calls (run env fuel))
  = if negb (glfwInit_result env) then []
    else if window_of env =? NULL then []
    else if negb (gladLoadGLLoader_result env)
         then [Cerr ("Failed to initialize GLAD" ++ newline)%string]
    else filter is_cerr (setup_calls env).
Proof.
  destruct (path_cases env) as [H|[[H1 H2]|[(H1 & H2 & H3)|Hb]]].
  - rewrite (run_init_fails env fuel H), H. reflexivity.
  - rewrite (run_window_fails env fuel H1 H2), H1, H2. reflexivity.
  - rewrite (run_loader_fails env fuel H1 H2 H3), H1, H3.
    rewrite (proj2 (Z.eqb_neq _ _) H2). reflexivity.
  - destruct (run_boots env fuel Hb) as (n & exited & Hrun & _).
    apply boots_inv in Hb as (H1 & H2 & H3).
    rewrite Hrun, H1, H2, H3. cbn [calls negb]. unfold run_calls.
    rewrite !filter_app, (filter_iterations env is_cerr _ cerr_not_in_loop).
    destruct exited; cbn; rewrite app_nil_r; reflexivity.
Qed.

(** X9. A run writes at most three pieces of text to standard error, and
    none at all when [glfwInit] fails or the window cannot be created:
    these two failures end the process without a message.  When the
    names of the two shaders and of the program are valid, no text is
    longer than 554 characters, and standard error stays empty exactly
    when [glfwInit] fails, when the window cannot be created, or when
    the loader succeeds and OpenGL reports a nonzero status for both
    compiles and for the link. *)
Theorem standard_error_output (env : Env) (fuel : nat) :
  (count is_cerr (calls (run env fuel)) <= 3)%nat
  /\ (glfwInit_result env = false \/ window_of env = NULL ->
      filter is_cerr (calls (run env fuel)) = [])
  /\ (names_valid env = true ->
      exists sv sf sl,
        shader_iv env (vertexShader_of env) GL_COMPILE_STATUS = Some sv
        /\ shader_iv env (fragmentShader_of env) GL_COMPILE_STATUS = Some sf
        /\ program_iv env (shaderProgram_of env) GL_LINK_STATUS = Some sl
        /\ (forall text, In (Cerr text) (calls (run env fuel)) ->
              (String.length text <= 554)%nat)
        /\ (filter is_cerr (calls (run env fuel)) = [] <->
            glfwInit_result env = false
            \/ window_of env = NULL
            \/ (gladLoadGLLoader_result env = true /\
                sv <> 0 /\ sf <> 0 /\ sl <> 0))).
Proof.
  pose proof (cerr_of_run env fuel) as Hout. rewrite setup_cerr in Hout.
  split; [|split].
  - unfold count. rewrite Hout.
    destruct (glfwInit_result env), (window_of env =? NULL),
      (gladLoadGLLoader_result env), (vertex_failed env), (fragment_failed env),
      (link_failed env); cbn; lia.
  - rewrite Hout. intros [ -> | -> ]; [reflexivity|].
    destruct (glfwInit_result env); reflexivity.
  - intros Hvalid.
    destruct (valid_answers env Hvalid)
      as (sv & lv & sf & lf & sl & ll & H1 & _ & H3 & _ & H5 & _
          & Hv & Hf & Hl & Tv & Tf & Tl).
    exists sv, sf, sl. repeat (split; [assumption|]). split.
    + intros text Hin.
      assert (Hin' : In (Cerr text) (filter is_cerr (calls (run env fuel))))
        by (apply filter_In; auto).
      rewrite Hout in Hin'.
      pose proof (proj1 (substring_prefix_length 511 lv)) as Lv.
      pose proof (proj1 (substring_prefix_length 511 lf)) as Lf.
      pose proof (proj1 (substring_prefix_length 511 ll)) as Ll.
      destruct (glfwInit_result env), (window_of env =? NULL),
        (gladLoadGLLoader_result env), (vertex_failed env), (fragment_failed env),
        (link_failed env); cbn [negb app In] in Hin';
        rewrite ?Tv, ?Tf, ?Tl in Hin' by reflexivity;
        repeat match goal with
               | H : _ \/ _ |- _ => destruct H as [H|H]
               | H : False |- _ => destruct H
               | H : Cerr _ = Cerr text |- _ => injection H as <-
               end;
        rewrite ?failure_report_length; cbn [String.length append newline]; lia.
    + rewrite Hout, Hv, Hf, Hl. split.
      * destruct (glfwInit_result env); [|auto].
        destruct (window_of env =? NULL) eqn:Hw; [apply Z.eqb_eq in Hw; auto|].
        destruct (gladLoadGLLoader_result env); [|discriminate].
        destruct (sv =? 0) eqn:Ev, (sf =? 0) eqn:Ef, (sl =? 0) eqn:El;
          cbn; try discriminate. intros _. right; right.
        apply Z.eqb_neq in Ev, Ef, El. auto.
      * intros [->|[->|(-> & Ev & Ef & El)]]; [reflexivity | |].
        -- destruct (glfwInit_result env); reflexivity.
        -- apply Z.eqb_neq in Ev, Ef, El. rewrite Ev, Ef, El.
           destruct (glfwInit_result env), (window_of env =? NULL); reflexivity.
Qed.

Lemma standard_error_output_witness :
  names_valid env_bad_shader = true
  /\ count is_cerr (calls (run env_bad_shader 4)) = 2%nat
  /\ filter is_cerr (calls (run env_no_window 4)) = []
  /\ filter is_cerr (calls (run env_closed 4)) = [].
Proof.
  destruct (standard_error_output env_no_window 4) as (_ & Hw & _).
  destruct (standard_error_output env_closed 4) as (_ & _ & Hc).
  destruct (Hc eq_refl) as (sv & sf & sl & Hsv & Hsf & Hsl & _ & Hempty).
  injection Hsv as <-. injection Hsf as <-. injection Hsl as <-.
  split; [reflexivity|]. split; [reflexivity|]. split.
  - apply Hw. right. reflexivity.
  - apply Hempty. right; right. repeat split; discriminate.
Defined.

Section Membership.

Variable env : Env.

Lemma iteration_In (i : nat) (e : Event) :
  In e (iteration env i) ->
  In e [ GlfwWindowShouldClose (window_of env);
         GlfwGetKey (window_of env) GLFW_KEY_ESCAPE;
         GlfwSetWindowShouldClose (window_of env) true;
         GlClear GL_COLOR_BUFFER_BIT;
         GlUseProgram (shaderProgram_of env);
         GlBindVertexArray (VAO_of env);
         GlDrawArrays GL_TRIANGLES 0 3;
         GlfwSwapBuffers (window_of env);
         GlfwPollEvents ]
  \/ exists width height, e = GlViewport 0 0 width height.
Proof.
  intros H.
  pose proof (Forall_iteration
    (fun e =>
       In e [ GlfwWindowShouldClose (window_of env);
              GlfwGetKey (window_of env) GLFW_KEY_ESCAPE;
              GlfwSetWindowShouldClose (window_of env) true;
              GlClear GL_COLOR_BUFFER_BIT;
              GlUseProgram (shaderProgram_of env);
              GlBindVertexArray (VAO_of env);
              GlDrawArrays GL_TRIANGLES 0 3;
              GlfwSwapBuffers (window_of env);
              GlfwPollEvents ]
       \/ exists width height, e = GlViewport 0 0 width height) env i) as HF.
  rewrite Forall_forall in HF. apply HF; try (left; cbn; tauto); [|exact H].
  intros width height. right. now exists width, height.
Qed.

(** Where a call of a run comes from. *)
Lemma run_In (fuel : nat) (e : Event) :
  In e (calls (run env fuel)) ->
  In e (bootstrap_calls env) \/ In e (geometry_calls env) \/ In e (shader_calls env)
  \/ (exists i, In e (iteration env i)) \/ In e (exit_calls env)
  \/ exists text, e = Cerr text.
Proof.
  destruct (path_cases env) as [H|[[H1 H2]|[(H1 & H2 & H3)|Hb]]].
  - rewrite (run_init_fails env fuel H). cbn. intros [<-|[]]. left. cbn. tauto.
  - rewrite (run_window_fails env fuel H1 H2). unfold window_failure_calls, hint_calls.
    cbn. intros [<-|[<-|[<-|[<-|[<-|[<-|[]]]]]]];
      first [left; cbn; tauto | do 4 right; left; cbn; tauto].
  - rewrite (run_loader_fails env fuel H1 H2 H3). unfold loader_failure_calls.
    cbn [calls]. intros Hin. apply in_app_or in Hin as [Hin|[<-|[]]]; [now left|].
    do 5 right. now eexists.
  - destruct (run_boots env fuel Hb) as (n & exited & Hrun & _).
    rewrite Hrun. cbn [calls]. unfold run_calls, setup_calls. intros Hin.
    apply in_app_or in Hin as [Hin|Hin].
    + apply in_app_or in Hin as [Hin|Hin]; [auto|].
      apply in_app_or in Hin as [Hin|Hin]; auto.
    + apply in_app_or in Hin as [Hin|Hin].
      * apply in_flat_map in Hin as (i & _ & Hi). do 3 right. left. now exists i.
      * destruct exited; [|destruct Hin]. do 4 right. now left.
Qed.

Ltac which_call H :=
  unfold bootstrap_calls, hint_calls, geometry_calls, exit_calls, cleanup_calls in H;
  cbn in H;
  repeat match type of H with
         | _ \/ _ => destruct H as [H|H]
         | False => destruct H
         | _ = _ => first [discriminate H | injection H; intros; subst; clear H]
         end;
  repeat split.

Lemma shader_calls_In (e : Event) :
  In e (shader_calls env) ->
  writes_buffer e = false /\ sets_attribute e = false /\ is_draw e = false.
Proof.
  unfold shader_calls, on_failure.
  destruct (vertex_failed env), (fragment_failed env), (link_failed env);
    cbn [app In]; intros H;
    repeat (destruct H as [<-|H]; [repeat split|]); destruct H.
Qed.

Lemma draw_in_run fuel mode first count :
  In (GlDrawArrays mode first count) (calls (run env fuel)) ->
  mode = GL_TRIANGLES /\ first = 0 /\ count = 3.
Proof.
  intros H. apply run_In in H as [H|[H|[H|[(i & H)|[H|(text & H)]]]]].
  - which_call H.
  - which_call H.
  - apply shader_calls_In in H as (_ & _ & H). discriminate H.
  - apply iteration_In in H as [H|(width & height & H)]; [|discriminate H].
    which_call H.
  - which_call H.
  - discriminate H.
Qed.

Lemma pointer_in_run fuel index size type normalized stride pointer :
  In (GlVertexAttribPointer index size type normalized stride pointer)
     (calls (run env fuel)) ->
  index = 0 /\ size = 3 /\ type = GL_FLOAT /\ normalized = false /\
  stride = 3 * sizeof_float /\ pointer = 0.
Proof.
  intros H. apply run_In in H as [H|[H|[H|[(i & H)|[H|(text & H)]]]]].
  - which_call H.
  - which_call H.
  - apply shader_calls_In in H as (_ & H & _). discriminate H.
  - apply iteration_In in H as [H|(width & height & H)]; [|discriminate H].
    which_call H.
  - which_call H.
  - discriminate H.
Qed.

Lemma upload_in_run fuel target size data usage :
  In (GlBufferData target size data usage) (calls (run env fuel)) ->
  target = GL_ARRAY_BUFFER /\ size = sizeof_vertices /\ data = vertices /\
  usage = GL_STATIC_DRAW.
Proof.
  intros H. apply run_In in H as [H|[H|[H|[(i & H)|[H|(text & H)]]]]].
  - which_call H.
  - which_call H.
  - apply shader_calls_In in H as (H & _ & _). discriminate H.
  - apply iteration_In in H as [H|(width & height & H)]; [|discriminate H].
    which_call H.
  - which_call H.
  - discriminate H.
Qed.

End Membership.

(** X10. Whatever draw, attribute layout and upload a run contains, they
    fit each other: the draw starts at a vertex that exists, the last
    byte it fetches under the layout is the last byte of the uploaded
    store and none beyond it, the store has the size of the uploaded
    floats, and the vertices drawn, read one after the other, are the
    uploaded floats, each once. *)
Theorem draws_stay_in_buffer (env : Env) (fuel : nat)
  (mode : GLenum) (first count : Z)
  (index size : Z) (type : GLenum) (normalized : bool) (stride pointer : Z)
  (target : GLenum) (bytes : Z) (data : list Q) (usage : GLenum) :
  In (GlDrawArrays mode first count) (calls (run env fuel)) ->
  In (GlVertexAttribPointer index size type normalized stride pointer)
     (calls (run env fuel)) ->
  In (GlBufferData target bytes data usage) (calls (run env fuel)) ->
  0 <= first /\ 0 < count
  /\ fetch_end size stride pointer first count = bytes
  /\ bytes = Z.of_nat (List.length data) * sizeof_float
  /\ flat_map (attribute_of_vertex data size stride pointer)
       (seq (Z.to_nat first) (Z.to_nat count)) = data.
Proof.
  intros Hdraw Hlayout Hupload.
  apply draw_in_run in Hdraw as (-> & -> & ->).
  apply pointer_in_run in Hlayout as (-> & -> & -> & -> & -> & ->).
  apply upload_in_run in Hupload as (-> & -> & -> & ->).
  repeat split; reflexivity.
Qed.

Lemma draws_stay_in_buffer_witness :
  In (GlDrawArrays GL_TRIANGLES 0 3) (calls (run env_closed 4)) /\
  fetch_end 3 12 0 0 3 = 36.
Proof.
  assert (Hdraw : In (GlDrawArrays GL_TRIANGLES 0 3) (calls (run env_closed 4)))
    by (cbn; tauto).
  assert (Hlayout : In (GlVertexAttribPointer 0 3 GL_FLOAT false 12 0)
                       (calls (run env_closed 4))) by (cbn; tauto).
  assert (Hupload : In (GlBufferData GL_ARRAY_BUFFER 36 vertices GL_STATIC_DRAW)
                       (calls (run env_closed 4))) by (cbn; tauto).
  split; [exact Hdraw|].
  exact (proj1 (proj2 (proj2 (draws_stay_in_buffer env_closed 4 _ _ _ _ _ _ _ _ _ _ _ _ _
                                 Hdraw Hlayout Hupload)))).
Defined.
